(** * gpx-to-svg: the 3D viewer's geometry pipeline

    A shallow embedding of the geometry code of the 3D viewer component
    (projection of geographic coordinates, building-height resolution from
    OSM tags, linear height mapping, foundation merging, track extrusion and
    scene composition), with the properties its specification states.

    ** The number model

    JavaScript numbers are IEEE-754 doubles.  Here a number is an _extended
    rational_: [NaN], [+Infinity], [-Infinity] or an exact finite rational.
    The arithmetic follows the IEEE rules for the special values (0/0 is NaN,
    x/0 is an infinity, Infinity - Infinity is NaN, ...) and is exact on finite
    values: the rounding and the overflow of [+], [-], [*] and [/] are not
    modelled, and negative zero is identified with zero.  The parsers
    [parseFloat] and [parseInt] do round what they read to the nearest double
    and overflow to an infinity.  The theorems on heights take whole-number
    targets and heights of magnitude at most [2^51], where the conclusions
    they state hold of the doubles as well. *)

From Stdlib Require Import QArith Qcanon Ascii String.
From stdpp Require Import base decidable list strings gmap.

Local Open Scope string_scope.
Local Open Scope list_scope.
Local Open Scope nat_scope.

(** ** Numbers *)

Module Num.

Inductive num : Type :=
  | NaN : num
  | Inf (negative : bool) : num
  | Fin (q : Qc) : num.

Definition ofZ (z : Z) : num := Fin (Q2Qc (inject_Z z)).
Definition ofQ (q : Q) : num := Fin (Q2Qc q).

Definition Qc_ltb (a b : Qc) : bool := negb (Qle_bool b a).
Definition Qc_eqb (a b : Qc) : bool := Qeq_bool a b.

Definition isNaN (a : num) : bool :=
  match a with NaN => true | _ => false end.

Definition isFinite (a : num) : bool :=
  match a with Fin _ => true | _ => false end.

(** Unary minus. *)
Definition neg (a : num) : num :=
  match a with
  | NaN => NaN
  | Inf s => Inf (negb s)
  | Fin q => Fin (- q)%Qc
  end.

(** [a + b] *)
Definition add (a b : num) : num :=
  match a, b with
  | NaN, _ | _, NaN => NaN
  | Inf s, Inf s' => if Bool.eqb s s' then Inf s else NaN
  | Inf s, Fin _ => Inf s
  | Fin _, Inf s => Inf s
  | Fin x, Fin y => Fin (x + y)%Qc
  end.

(** [a - b] *)
Definition sub (a b : num) : num := add a (neg b).

(** [a * b] *)
Definition mul (a b : num) : num :=
  match a, b with
  | NaN, _ | _, NaN => NaN
  | Inf s, Inf s' => Inf (xorb s s')
  | Inf s, Fin y | Fin y, Inf s =>
      if Qc_eqb y 0%Qc then NaN else Inf (xorb s (Qc_ltb y 0%Qc))
  | Fin x, Fin y => Fin (x * y)%Qc
  end.

(** [a / b] *)
Definition div (a b : num) : num :=
  match a, b with
  | NaN, _ | _, NaN => NaN
  | Inf _, Inf _ => NaN
  | Inf s, Fin y => Inf (xorb s (Qc_ltb y 0%Qc))
  | Fin _, Inf _ => Fin 0%Qc
  | Fin x, Fin y =>
      if Qc_eqb y 0%Qc
      then (if Qc_eqb x 0%Qc then NaN else Inf (Qc_ltb x 0%Qc))
      else Fin (x / y)%Qc
  end.

(** [a < b] *)
Definition ltb (a b : num) : bool :=
  match a, b with
  | NaN, _ | _, NaN => false
  | Inf s, Inf s' => s && negb s'
  | Inf s, Fin _ => s
  | Fin _, Inf s => negb s
  | Fin x, Fin y => Qc_ltb x y
  end.

(** [a === b] on numbers. *)
Definition eqb (a b : num) : bool :=
  match a, b with
  | NaN, _ | _, NaN => false
  | Inf s, Inf s' => Bool.eqb s s'
  | Fin x, Fin y => Qc_eqb x y
  | _, _ => false
  end.

(** [a <= b] *)
Definition leb (a b : num) : bool := ltb a b || eqb a b.

(** ToBoolean on a number: [NaN] and zero are falsy. *)
Definition truthy (a : num) : bool :=
  match a with
  | NaN => false
  | Inf _ => true
  | Fin q => negb (Qc_eqb q 0%Qc)
  end.

(** [Math.min(...l)]: NaN if any argument is NaN, otherwise the lowest,
    starting from [+Infinity]. *)
Definition Math_min (l : list num) : num :=
  if existsb isNaN l then NaN
  else foldl (fun lowest n => if ltb n lowest then n else lowest) (Inf false) l.

(** [Math.max(...l)]: NaN if any argument is NaN, otherwise the highest,
    starting from [-Infinity]. *)
Definition Math_max (l : list num) : num :=
  if existsb isNaN l then NaN
  else foldl (fun highest n => if ltb highest n then n else highest) (Inf true) l.

End Num.

Export Num.

Declare Scope num_scope.
Delimit Scope num_scope with num.
Bind Scope num_scope with num.
Infix "+" := Num.add : num_scope.
Infix "-" := Num.sub : num_scope.
Infix "*" := Num.mul : num_scope.
Infix "/" := Num.div : num_scope.
Notation "- x" := (Num.neg x) : num_scope.

(** ** The built-ins [parseFloat] and [parseInt] (ECMA-262, 19.2.4 and 19.2.5)

    A string is the sequence of the bytes of its UTF-8 encoding.  The white
    space stripped in front is that of ECMAScript: TAB, LF, VT, FF, CR, SPACE,
    U+00A0, U+1680, U+2000 to U+200A, U+2028, U+2029, U+202F, U+205F, U+3000
    and U+FEFF.  The parsed value is rounded to the nearest double (ties to
    even): a value too large is an infinity and a value too small is zero. *)

Module Parse.

Local Open Scope char_scope.

Definition isWhiteSpace (c : ascii) : bool :=
  match c with
  | "009" | "010" | "011" | "012" | "013" | " " => true
  | _ => false
  end.

(** The third byte of U+2000 to U+200A, U+2028, U+2029 and U+202F, after
    the bytes 226 and 128. *)
Definition isSpaceE280 (c : ascii) : bool :=
  let n := nat_of_ascii c in
  ((128 <=? n)%nat && (n <=? 138)%nat) || (n =? 168)%nat || (n =? 169)%nat
  || (n =? 175)%nat.

Fixpoint trimStart (s : list ascii) : list ascii :=
  match s with
  | c :: r =>
      if isWhiteSpace c then trimStart r
      else
        match c, r with
        | "194", "160" :: r' => trimStart r'
        | "225", "154" :: "128" :: r' => trimStart r'
        | "226", "128" :: c3 :: r' => if isSpaceE280 c3 then trimStart r' else s
        | "226", "129" :: "159" :: r' => trimStart r'
        | "227", "128" :: "128" :: r' => trimStart r'
        | "239", "187" :: "191" :: r' => trimStart r'
        | _, _ => s
        end
  | [] => []
  end.

Definition decimalDigit (c : ascii) : option Z :=
  match c with
  | "0" => Some 0%Z | "1" => Some 1%Z | "2" => Some 2%Z | "3" => Some 3%Z
  | "4" => Some 4%Z | "5" => Some 5%Z | "6" => Some 6%Z | "7" => Some 7%Z
  | "8" => Some 8%Z | "9" => Some 9%Z
  | _ => None
  end.

Definition hexDigit (c : ascii) : option Z :=
  match c with
  | "a" | "A" => Some 10%Z | "b" | "B" => Some 11%Z | "c" | "C" => Some 12%Z
  | "d" | "D" => Some 13%Z | "e" | "E" => Some 14%Z | "f" | "F" => Some 15%Z
  | _ => decimalDigit c
  end.

(** The longest prefix of digits (for the digit reader [dig]) and the rest. *)
Fixpoint spanDigits (dig : ascii -> option Z) (s : list ascii)
  : list Z * list ascii :=
  match s with
  | c :: r =>
      match dig c with
      | Some d => let '(ds, rest) := spanDigits dig r in (d :: ds, rest)
      | None => ([], s)
      end
  | [] => ([], [])
  end.

(** The mathematical value of a digit sequence in radix [R]. *)
Definition digitsValue (R : Z) (ds : list Z) : Z :=
  foldl (fun acc d => (acc * R + d)%Z) 0%Z ds.

(** An optional sign; [true] is minus. *)
Definition readSign (s : list ascii) : bool * list ascii :=
  match s with
  | "-" :: r => (true, r)
  | "+" :: r => (false, r)
  | _ => (false, s)
  end.

Fixpoint startsWith (p s : list ascii) : bool :=
  match p, s with
  | [], _ => true
  | a :: p', b :: s' => if Ascii.eqb a b then startsWith p' s' else false
  | _ :: _, [] => false
  end.

(** ExponentPart: [e] or [E], an optional sign and at least one digit;
    the value is 0 when no complete exponent part follows. *)
Definition readExponent (s : list ascii) : Z :=
  match s with
  | c :: r =>
      if Ascii.eqb c "e" || Ascii.eqb c "E" then
        let '(sg, r') := readSign r in
        match spanDigits decimalDigit r' with
        | ([], _) => 0%Z
        | (ds, _) => if sg then (- digitsValue 10 ds)%Z else digitsValue 10 ds
        end
      else 0%Z
  | [] => 0%Z
  end.

Definition applySign (sg : bool) (q : Q) : Q := if sg then Qopp q else q.

(** The double nearest to the positive rational [n / d]: with
    [2^e <= n / d < 2^(e+1)] the unit in the last place is [2^E] for
    [E = max e (-1022) - 52], and [n / d] is rounded to a multiple of it,
    ties to the even multiple; from [2^1024] on the result is [+Infinity]. *)
Definition roundPositive (n d : Z) : num :=
  let e0 := (Z.log2 n - Z.log2 d)%Z in
  let reaches :=
    if (0 <=? e0)%Z then (d * 2 ^ e0 <=? n)%Z else (d <=? n * 2 ^ (- e0))%Z in
  let e := if reaches then e0 else (e0 - 1)%Z in
  if (1023 <? e)%Z then Inf false
  else
    let E := (Z.max e (-1022) - 52)%Z in
    let num := if (E <? 0)%Z then (n * 2 ^ (- E))%Z else n in
    let den := if (E <? 0)%Z then d else (d * 2 ^ E)%Z in
    let m0 := (num / den)%Z in
    let rest := (num mod den)%Z in
    let m :=
      match (2 * rest ?= den)%Z with
      | Lt => m0
      | Gt => (m0 + 1)%Z
      | Eq => if Z.even m0 then m0 else (m0 + 1)%Z
      end in
    if (m =? 2 ^ 53)%Z && (E =? 971)%Z then Inf false
    else ofQ (inject_Z m * Qpower (inject_Z 2) E)%Q.

(** The Number value for a rational. *)
Definition roundToDouble (q : Q) : num :=
  match Qnum q with
  | Z0 => ofZ 0
  | Zpos n => roundPositive (Zpos n) (Zpos (Qden q))
  | Zneg n => neg (roundPositive (Zpos n) (Zpos (Qden q)))
  end.

(** [parseFloat(s)]: the longest prefix of the trimmed string that is a
    StrDecimalLiteral, or NaN when there is none. *)
Definition parseFloat (s : string) : num :=
  let t := trimStart (list_ascii_of_string s) in
  let '(sg, t1) := readSign t in
  if startsWith (list_ascii_of_string "Infinity") t1 then Inf sg
  else
    let '(ip, r1) := spanDigits decimalDigit t1 in
    let '(fp, r2) :=
      match r1 with
      | "." :: r =>
          match ip, spanDigits decimalDigit r with
          | [], ([], _) => ([], r1)
          | _, (fp, r') => (fp, r')
          end
      | _ => ([], r1)
      end in
    match ip, fp with
    | [], [] => NaN
    | _, _ =>
        let mant := inject_Z (digitsValue 10 (ip ++ fp)) in
        let e := (readExponent r2 - Z.of_nat (length fp))%Z in
        roundToDouble (applySign sg (mant * Qpower (inject_Z 10) e)%Q)
    end.

(** [parseInt(s)] with no radix argument: radix 16 after a [0x] or [0X]
    prefix, radix 10 otherwise; NaN when no digit follows. *)
Definition parseInt (s : string) : num :=
  let t := trimStart (list_ascii_of_string s) in
  let '(sg, t1) := readSign t in
  let '(R, dig, t2) :=
    match t1 with
    | "0" :: "x" :: r | "0" :: "X" :: r => (16%Z, hexDigit, r)
    | _ => (10%Z, decimalDigit, t1)
    end in
  match spanDigits dig t2 with
  | ([], _) => NaN
  | (ds, _) => roundToDouble (applySign sg (inject_Z (digitsValue R ds)))
  end.

End Parse.

Export Parse.

(** ** Data model *)

(** An element of [building.geometry]: [{ lat, lon }]. *)
Record Coord : Type := mkCoord { lat : num; lon : num }.

(** [GPXPoint] of the track parser; the viewer reads [lat] and [lon]. *)
Module GPXPoint.
Record t : Type := mk { lat : num; lon : num; ele : option num }.
End GPXPoint.

(** [OSMBounds]. *)
Record OSMBounds : Type :=
  mkBounds { north : num; south : num; east : num; west : num }.

(** [modelDimensions]. *)
Record ModelDimensions : Type := mkDims { width : num; depth : num }.

(** An element of [osmData.buildings]. *)
Record Building : Type :=
  mkBuilding { geometry : list Coord; tags : gmap string string }.

(** [OSMData]; the viewer reads [buildings]. *)
Record OSMData : Type := mkOSMData { buildings : list Building }.

(** [buildingHeightRange]: the target range, in millimetres. *)
Module HeightRange.
Record t : Type := mk { min : num; max : num }.
End HeightRange.

(** [heightMapping]: the source range [min, max] in metres and the target
    range [minMM, maxMM]. *)
Module HeightMapping.
Record t : Type := mk { min : num; max : num; minMM : num; maxMM : num }.
End HeightMapping.

(** [THREE.Vector2]. *)
Module Vector2.
Record t : Type := mk { x : num; y : num }.

Definition subVectors (a b : t) : t := mk (x a - x b) (y a - y b).
Definition addVectors (a b : t) : t := mk (x a + x b) (y a + y b).
Definition multiplyScalar (v : t) (s : num) : t := mk (x v * s) (y v * s).
Definition divideScalar (v : t) (s : num) : t :=
  multiplyScalar v (ofZ 1 / s).
End Vector2.

(** [a.equals(b)]: [b.x === a.x && b.y === a.y]. *)
Definition Vector2_equals (a b : Vector2.t) : bool :=
  Num.eqb (Vector2.x b) (Vector2.x a) && Num.eqb (Vector2.y b) (Vector2.y a).

(** A [THREE.Shape], as the sequence of the points of its outline. *)
Definition Shape : Type := list Vector2.t.

(** A [THREE.BufferGeometry]: the flat array of the [position] attribute
    (three numbers per vertex; empty when the geometry has no such attribute)
    and the optional [index]. *)
Record BufferGeometry : Type :=
  mkGeometry { position : list num; index : option (list nat) }.

(** [geometry.attributes.position.count]: the array length over the item size 3. *)
Definition count (g : BufferGeometry) : nat := length (position g) / 3.

(** [new THREE.BufferGeometry()] *)
Definition emptyGeometry : BufferGeometry := mkGeometry [] None.

(** ** [getBuildingHeight] *)

(** A tag read as a condition: a missing tag ([undefined]) and the empty
    string are falsy. *)
Definition truthyTag (v : option string) : option string :=
  match v with
  | Some (String c s) => Some (String c s)
  | _ => None
  end.

(** The [switch] on [building.tags.building]. *)
Definition buildingTypeHeight (buildingType : option string) : num :=
  match buildingType with
  | Some t =>
      if String.eqb t "house" || String.eqb t "residential" then ofZ 6
      else if String.eqb t "apartments" then ofZ 15
      else if String.eqb t "commercial" || String.eqb t "retail" then ofZ 4
      else if String.eqb t "industrial" then ofZ 8
      else if String.eqb t "office" then ofZ 20
      else if String.eqb t "hospital" then ofZ 12
      else if String.eqb t "school" then ofZ 4
      else if String.eqb t "church" then ofZ 15
      else ofZ 6
  | None => ofZ 6
  end.

Definition getBuildingHeight (building : Building) : num :=
  let height := ofZ 6 in
  match truthyTag (tags building !! "height") with
  | Some h =>
      let parsedHeight := parseFloat h in
      if negb (isNaN parsedHeight) then parsedHeight else height
  | None =>
      match truthyTag (tags building !! "building:levels") with
      | Some l =>
          let levels := parseInt l in
          if negb (isNaN levels) then (levels * ofZ 3)%num else height
      | None => buildingTypeHeight (tags building !! "building")
      end
  end.

(** ** The components

    [THREE.ExtrudeGeometry] and [Math.sqrt] are library code; the components
    are parametrised by them. *)

Section Viewer3D.

Variable ExtrudeGeometry : Shape -> num -> BufferGeometry.
Variable Math_sqrt : num -> num.

(** [0.5] *)
Definition half : num := ofQ (1 # 2).

(** [modelDimensions ? modelDimensions.width : 1000] *)
Definition scaleX (modelDimensions : option ModelDimensions) : num :=
  match modelDimensions with Some d => width d | None => ofZ 1000 end.

(** [modelDimensions ? modelDimensions.depth : 1000] *)
Definition scaleZ (modelDimensions : option ModelDimensions) : num :=
  match modelDimensions with Some d => depth d | None => ofZ 1000 end.

(** *** [Building3D] *)

(** The [points] of the first [useMemo] of [Building3D]. *)
Definition Building3D_points (building : Building) (bounds : OSMBounds)
    (modelDimensions : option ModelDimensions) : list Vector2.t :=
  let latRange := (north bounds - south bounds)%num in
  let lonRange := (east bounds - west bounds)%num in
  let scaleX := scaleX modelDimensions in
  let scaleZ := scaleZ modelDimensions in
  foldl (fun points coord =>
           let x := (((lon coord - west bounds) / lonRange - half) * scaleX)%num in
           let z := (- ((lat coord - south bounds) / latRange - half) * scaleZ)%num in
           points ++ [Vector2.mk x z])
        [] (geometry building).

(** The [height] of the first [useMemo] of [Building3D]. *)
Definition Building3D_height (originalHeight : num)
    (heightMapping : HeightMapping.t) : num :=
  let min := HeightMapping.min heightMapping in
  let max := HeightMapping.max heightMapping in
  let minMM := HeightMapping.minMM heightMapping in
  let maxMM := HeightMapping.maxMM heightMapping in
  let normalizedHeight := ((originalHeight - min) / (max - min))%num in
  let mappedHeight := (minMM + normalizedHeight * (maxMM - minMM))%num in
  mappedHeight.

(** The geometry of the mesh that [Building3D] renders. *)
Definition Building3D (building : Building) (bounds : OSMBounds)
    (modelDimensions : option ModelDimensions) (originalHeight : num)
    (heightMapping : HeightMapping.t) : BufferGeometry :=
  let shape : Shape := Building3D_points building bounds modelDimensions in
  let height := Building3D_height originalHeight heightMapping in
  ExtrudeGeometry shape height.

(** *** [Foundation3D] *)

(** The [points] of one building inside [Foundation3D]. *)
Definition Foundation3D_points (building : Building) (bounds : OSMBounds)
    (modelDimensions : option ModelDimensions) : list Vector2.t :=
  let latRange := (north bounds - south bounds)%num in
  let lonRange := (east bounds - west bounds)%num in
  let scaleX := scaleX modelDimensions in
  let scaleZ := scaleZ modelDimensions in
  foldl (fun points coord =>
           let x := (((lon coord - west bounds) / lonRange - half) * scaleX)%num in
           let z := (- ((lat coord - south bounds) / latRange - half) * scaleZ)%num in
           points ++ [Vector2.mk x z])
        [] (geometry building).

(** [allShapes] after the [buildings.forEach]. *)
Definition Foundation3D_allShapes (buildings : list Building)
    (bounds : OSMBounds) (modelDimensions : option ModelDimensions)
  : list Shape :=
  foldl (fun allShapes building =>
           if 2 <? length (geometry building) then
             let points := Foundation3D_points building bounds modelDimensions in
             if 2 <? length points then allShapes ++ [points] else allShapes
           else allShapes)
        [] buildings.

(** [foundationGeometries] after the [allShapes.forEach]. *)
Definition Foundation3D_geometries (allShapes : list Shape)
  : list BufferGeometry :=
  let foundationHeight := ofZ 2 in
  foldl (fun foundationGeometries shape =>
           foundationGeometries ++ [ExtrudeGeometry shape foundationHeight])
        [] allShapes.

(** The state of the merge loop. *)
Record MergeState : Type :=
  mkMergeState { positions : list num; indices : list nat; vertexOffset : nat }.

(** One round of [foundationGeometries.forEach] in the merge. *)
Definition mergeStep (st : MergeState) (geometry : BufferGeometry) : MergeState :=
  let pos := position geometry in
  let pos_count := count geometry in
  let idx := index geometry in
  let positions1 :=
    foldl (fun positions i => positions ++ [default NaN (pos !! i)])
          (positions st) (seq 0 (pos_count * 3)) in
  let indices1 :=
    match idx with
    | Some arr =>
        foldl (fun indices i => indices ++ [default 0 (arr !! i) + vertexOffset st])
              (indices st) (seq 0 (length arr))
    | None => indices st
    end in
  mkMergeState positions1 indices1 (vertexOffset st + pos_count).

(** "Merge all foundation geometries": the single geometry itself, or the
    merged buffer. *)
Definition mergeGeometries (foundationGeometries : list BufferGeometry)
  : BufferGeometry :=
  match foundationGeometries with
  | [g] => g
  | _ =>
      let st := foldl mergeStep (mkMergeState [] [] 0) foundationGeometries in
      mkGeometry (positions st) (Some (indices st))
  end.

(** From [if (allShapes.length === 0)] to the end of the memo: no shape
    gives an empty geometry, the others are extruded and merged. *)
Definition Foundation3D_merge (allShapes : list Shape) : BufferGeometry :=
  if length allShapes =? 0 then emptyGeometry
  else mergeGeometries (Foundation3D_geometries allShapes).

(** The [foundationGeometry] of [Foundation3D]. *)
Definition Foundation3D (buildings : list Building) (bounds : OSMBounds)
    (modelDimensions : option ModelDimensions) : BufferGeometry :=
  if length buildings =? 0 then emptyGeometry
  else Foundation3D_merge (Foundation3D_allShapes buildings bounds modelDimensions).

(** *** [GPXTrack3D] *)

(** [v.length()] *)
Definition Vector2_length (v : Vector2.t) : num :=
  Math_sqrt (Vector2.x v * Vector2.x v + Vector2.y v * Vector2.y v)%num.

(** [v.normalize()], that is [v.divideScalar(v.length() || 1)]. *)
Definition Vector2_normalize (v : Vector2.t) : Vector2.t :=
  let len := Vector2_length v in
  Vector2.divideScalar v (if truthy len then len else ofZ 1).

(** An array read that is out of range gives [undefined]; the reads below
    are all in range. *)
Definition undefinedVector : Vector2.t := Vector2.mk NaN NaN.

(** The [direction] at index [i] of [pathPoints]. *)
Definition direction (pathPoints : list Vector2.t) (i : nat) : Vector2.t :=
  let at_ (k : nat) := nth k pathPoints undefinedVector in
  let current := at_ i in
  if i =? 0 then
    Vector2_normalize (Vector2.subVectors (at_ (i + 1)) current)
  else if i =? length pathPoints - 1 then
    Vector2_normalize (Vector2.subVectors current (at_ (i - 1)))
  else
    let dirToPrev := Vector2_normalize (Vector2.subVectors current (at_ (i - 1))) in
    let dirToNext := Vector2_normalize (Vector2.subVectors (at_ (i + 1)) current) in
    Vector2_normalize (Vector2.addVectors dirToPrev dirToNext).

(** The [perpendicular] at index [i], scaled by [pathWidth]. *)
Definition perpendicular (pathPoints : list Vector2.t) (pathWidth : num)
    (i : nat) : Vector2.t :=
  let d := direction pathPoints i in
  Vector2.multiplyScalar (Vector2.mk (- Vector2.y d)%num (Vector2.x d)) pathWidth.

(** [expandedPath] after the forward and the backward loop. *)
Definition expandedPath (pathPoints : list Vector2.t) (pathWidth : num)
  : list Vector2.t :=
  let forward :=
    foldl (fun expandedPath i =>
             let current := nth i pathPoints undefinedVector in
             expandedPath
               ++ [Vector2.addVectors current (perpendicular pathPoints pathWidth i)])
          [] (seq 0 (length pathPoints)) in
  foldl (fun expandedPath i =>
           let current := nth i pathPoints undefinedVector in
           expandedPath
             ++ [Vector2.subVectors current (perpendicular pathPoints pathWidth i)])
        forward (rev (seq 0 (length pathPoints))).

(** [pathPoints]: the projected track. *)
Definition GPXTrack3D_pathPoints (points : list GPXPoint.t) (bounds : OSMBounds)
    (modelDimensions : option ModelDimensions) : list Vector2.t :=
  let latRange := (north bounds - south bounds)%num in
  let lonRange := (east bounds - west bounds)%num in
  let scaleX := scaleX modelDimensions in
  let scaleZ := scaleZ modelDimensions in
  map (fun point =>
         let x :=
           (((GPXPoint.lon point - west bounds) / lonRange - half) * scaleX)%num in
         let z :=
           (- ((GPXPoint.lat point - south bounds) / latRange - half) * scaleZ)%num in
         Vector2.mk x z)
      points.

(** [pathShape]: [moveTo] the first point, [lineTo] the others, [closePath].
    [closePath] adds the line back to the first point unless the last point
    [equals] the first. *)
Definition GPXTrack3D_pathShape (pathPoints : list Vector2.t) (pathWidth : num)
  : Shape :=
  if 2 <=? length pathPoints then
    let expandedPath := expandedPath pathPoints pathWidth in
    let start := nth 0 expandedPath undefinedVector in
    let path := start :: skipn 1 expandedPath in
    let endPoint := default start (last path) in
    if Vector2_equals start endPoint then path else path ++ [start]
  else [].

(** The [trackGeometry] of [GPXTrack3D]. *)
Definition GPXTrack3D (points : list GPXPoint.t) (bounds : OSMBounds)
    (strokeWidth : num) (modelDimensions : option ModelDimensions)
    (pathExtrusionHeight : option num) : BufferGeometry :=
  if length points <? 2 then emptyGeometry
  else
    let extrusionHeight :=
      match pathExtrusionHeight with
      | Some h => if truthy h then h else ofZ 2
      | None => ofZ 2
      end in
    let pathPoints := GPXTrack3D_pathPoints points bounds modelDimensions in
    let pathWidth := (strokeWidth * half)%num in
    let pathShape := GPXTrack3D_pathShape pathPoints pathWidth in
    ExtrudeGeometry pathShape extrusionHeight.

(** *** [Scene3D] *)

(** The [heightMapping] memo of [Scene3D]; [None] is [null]. *)
Definition heightMapping (osmData : option OSMData)
    (buildingHeightRange : option HeightRange.t) : option HeightMapping.t :=
  match osmData, buildingHeightRange with
  | Some data, Some range =>
      if length (buildings data) =? 0 then None
      else
        let heights := map getBuildingHeight (buildings data) in
        let minHeight := Math_min heights in
        let maxHeight := Math_max heights in
        let actualMin :=
          if Num.eqb minHeight maxHeight then (minHeight - ofZ 1)%num else minHeight in
        let actualMax :=
          if Num.eqb minHeight maxHeight then (maxHeight + ofZ 1)%num else maxHeight in
        Some (HeightMapping.mk actualMin actualMax
                (HeightRange.min range) (HeightRange.max range))
  | _, _ => None
  end.

(** [heightMapping || { min: 6, max: 6, minMM: 5, maxMM: 30 }]: the mapping
    handed to every [Building3D]. *)
Definition buildingHeightMapping (osmData : option OSMData)
    (buildingHeightRange : option HeightRange.t) : HeightMapping.t :=
  match heightMapping osmData buildingHeightRange with
  | Some m => m
  | None => HeightMapping.mk (ofZ 6) (ofZ 6) (ofZ 5) (ofZ 30)
  end.

(** What [Scene3D] renders: the foundation, one mesh per [Building3D] and
    the track (lights left out). *)
Record Scene : Type :=
  mkScene {
    foundationMesh : option BufferGeometry;
    buildingMeshes : list BufferGeometry;
    trackMesh : option BufferGeometry
  }.

Definition Scene3D (osmData : option OSMData) (bounds : option OSMBounds)
    (gpxPoints : option (list GPXPoint.t)) (strokeWidth : option num)
    (modelDimensions : option ModelDimensions)
    (buildingHeightRange : option HeightRange.t)
    (pathExtrusionHeight : option num) : Scene :=
  let strokeWidth := default (ofZ 2) strokeWidth in
  match bounds with
  | None => mkScene None [] None
  | Some bounds =>
      mkScene
        (match osmData with
         | Some data =>
             if 0 <? length (buildings data)
             then Some (Foundation3D (buildings data) bounds modelDimensions)
             else None
         | None => None
         end)
        (match osmData with
         | Some data =>
             map (fun building =>
                    let originalHeight := getBuildingHeight building in
                    Building3D building bounds modelDimensions originalHeight
                      (buildingHeightMapping osmData buildingHeightRange))
                 (buildings data)
         | None => []
         end)
        (match gpxPoints with
         | Some points =>
             if 1 <? length points
             then Some (GPXTrack3D points bounds strokeWidth modelDimensions
                          pathExtrusionHeight)
             else None
         | None => None
         end)
  end.

End Viewer3D.

(** ** Definitions used to state the properties *)

(** The projection in the words of the specification:
    [x = ((lon - west) / (east - west) - 0.5) * width] and
    [z = -((lat - south) / (north - south) - 0.5) * depth]. *)
Definition project (point : Coord) (bounds : OSMBounds) (dims : ModelDimensions)
  : Vector2.t :=
  Vector2.mk
    (((lon point - west bounds) / (east bounds - west bounds) - half) * width dims)%num
    (- ((lat point - south bounds) / (north bounds - south bounds) - half) * depth dims)%num.

(** The coordinate pair of a track point. *)
Definition coordOfGPXPoint (p : GPXPoint.t) : Coord :=
  mkCoord (GPXPoint.lat p) (GPXPoint.lon p).

(** A number that is finite and strictly positive. *)
Definition positiveFinite (a : num) : bool := isFinite a && Num.ltb (ofZ 0) a.

(** A building that has only tags. *)
Definition taggedBuilding (l : list (string * string)) : Building :=
  mkBuilding [] (list_to_map l).

(** The vertices that the merge copies from one geometry. *)
Definition copiedPositions (g : BufferGeometry) : list num :=
  take (count g * 3) (position g).

(** The indices of the geometries, each shifted by the number of vertices
    of the geometries before it, starting from [offset]. *)
Fixpoint shiftedIndices (offset : nat) (gs : list BufferGeometry) : list nat :=
  match gs with
  | [] => []
  | g :: rest =>
      map (fun i => i + offset) (default [] (index g))
        ++ shiftedIndices (offset + count g) rest
  end.

(** The sum of the vertex counts. *)
Definition totalCount (gs : list BufferGeometry) : nat :=
  foldr (fun g n => count g + n) 0 gs.

(** A geometry whose position array holds whole vertices and whose indices
    all point at one of them. *)
Definition validGeometry (g : BufferGeometry) : Prop :=
  length (position g) = count g * 3 /\
  Forall (fun i => i < count g) (default [] (index g)).

(** An extruder for the examples: the outline at height 0 and at height
    [depth], and the two triangles of every side wall. *)
Definition wallExtrude (shape : Shape) (depth : num) : BufferGeometry :=
  mkGeometry
    (flat_map (fun p => [Vector2.x p; Vector2.y p; ofZ 0;
                         Vector2.x p; Vector2.y p; depth]) shape)
    (Some (flat_map (fun i => let j := (i + 1) mod length shape in
                              [2 * i; 2 * j; 2 * j + 1; 2 * i; 2 * j + 1; 2 * i + 1])
                    (seq 0 (length shape)))).

(** A triangle and a square outline. *)
Definition triangleShape : Shape :=
  [Vector2.mk (ofZ 0) (ofZ 0); Vector2.mk (ofZ 10) (ofZ 0); Vector2.mk (ofZ 0) (ofZ 10)].

Definition squareShape : Shape :=
  [Vector2.mk (ofZ 20) (ofZ 20); Vector2.mk (ofZ 30) (ofZ 20);
   Vector2.mk (ofZ 30) (ofZ 30); Vector2.mk (ofZ 20) (ofZ 30)].

(** The unit bounds [{ north: 1, south: 0, east: 1, west: 0 }]. *)
Definition unitBounds : OSMBounds := mkBounds (ofZ 1) (ofZ 0) (ofZ 1) (ofZ 0).

(** [a <= v <= b] on numbers; false when one of them is NaN. *)
Definition within (a b v : num) : bool := Num.leb a v && Num.leb v b.

(** A stand-in for [Math.sqrt] in the examples: exact at 0 and at 25. *)
Definition sampleSqrt (a : num) : num :=
  if Num.eqb a (ofZ 25) then ofZ 5 else if Num.eqb a (ofZ 0) then ofZ 0 else a.

(** The sum of the index counts. *)
Definition totalIndexCount (gs : list BufferGeometry) : nat :=
  foldr (fun g n => length (default [] (index g)) + n) 0 gs.

(** ** The page: how [Home] calls the viewer and reuses fetched map data *)

Module Home.

(** The state [osmDataCache]; [bounds] is the JSON text of the bounds. *)
Record OSMDataCache : Type :=
  mkCache {
    data : OSMData;
    bounds : string;
    includeRoads : bool;
    includeBuildings : bool
  }.

(** A boolean inside a template literal. *)
Definition boolToString (b : bool) : string := if b then "true" else "false".

(** [`${includeRoads}-${includeBuildings}`] *)
Definition boundsKey (includeRoads includeBuildings : bool) : string :=
  String.append (boolToString includeRoads)
    (String.append "-" (boolToString includeBuildings)).

(** [currentCacheKey] of [handleGenerateSVG]: the key of the cache, or the
    empty string. *)
Definition currentCacheKey (osmDataCache : option OSMDataCache) : string :=
  match osmDataCache with
  | Some c => boundsKey (Home.includeRoads c) (Home.includeBuildings c)
  | None => ""
  end.

Section Page.

(** [JSON.parse] on the text of the bounds. *)
Variable JSON_parse : string -> OSMBounds.
Variable ExtrudeGeometry : Shape -> num -> BufferGeometry.
Variable Math_sqrt : num -> num.

(** [svgOptions.cachedOSMData]; [None] is [null]. *)
Definition cachedOSMData (includeRoads includeBuildings : bool)
    (osmDataCache : option OSMDataCache) : option (OSMData * OSMBounds) :=
  match osmDataCache with
  | Some c =>
      if String.eqb (boundsKey includeRoads includeBuildings)
                    (currentCacheKey osmDataCache)
      then Some (data c, JSON_parse (bounds c))
      else None
  | None => None
  end.

(** The first element of a slider's state array as a number: [undefined]
    (an empty array) is used in arithmetic only, where it is NaN. *)
Definition first (l : list num) : num := default NaN (head l).

(** What the [Viewer3D] of the page renders, from the state of [Home]. *)
Definition viewer3D (osmDataCache : option OSMDataCache)
    (points : list GPXPoint.t)
    (strokeWidth modelWidth modelDepth minBuildingHeight maxBuildingHeight
       pathExtrusionHeight : list num) : Scene :=
  Scene3D ExtrudeGeometry Math_sqrt
    (match osmDataCache with Some c => Some (data c) | None => None end)
    (match osmDataCache with Some c => Some (JSON_parse (bounds c)) | None => None end)
    (Some points)
    (head strokeWidth)
    (Some (mkDims (first modelWidth) (first modelDepth)))
    (Some (HeightRange.mk (first minBuildingHeight) (first maxBuildingHeight)))
    (head pathExtrusionHeight).

End Page.

End Home.

(** ** The selection area of the colour picker: [handlePointerMove] *)

Module ColorPickerSelection.

(** The [DOMRect] of the container. *)
Module DOMRect.
Record t : Type := mk { left : num; top : num; width : num; height : num }.
End DOMRect.

(** The fields of the [PointerEvent] that are read. *)
Module PointerEvent.
Record t : Type := mk { clientX : num; clientY : num }.
End PointerEvent.

(** The four state values that one move sets. *)
Module Update.
Record t : Type :=
  mk { positionX : num; positionY : num; saturation : num; lightness : num }.
End Update.

(** [Math.max(0, Math.min(1, v))] *)
Definition clamp01 (v : num) : num := Math_max [ofZ 0; Math_min [ofZ 1; v]].

(** One call of [handlePointerMove]; [None] is the early [return], which
    sets nothing.  [containerRef_current] is [None] when the ref is not
    attached. *)
Definition handlePointerMove (isDragging : bool)
    (containerRef_current : option DOMRect.t) (event : PointerEvent.t)
  : option Update.t :=
  match containerRef_current with
  | Some rect =>
      if negb isDragging then None
      else
        let x :=
          clamp01 ((PointerEvent.clientX event - DOMRect.left rect)
                   / DOMRect.width rect)%num in
        let y :=
          clamp01 ((PointerEvent.clientY event - DOMRect.top rect)
                   / DOMRect.height rect)%num in
        let topLightness :=
          if Num.ltb x (ofQ (1 # 100)) then ofZ 100
          else (ofZ 50 + ofZ 50 * (ofZ 1 - x))%num in
        let lightness := (topLightness * (ofZ 1 - y))%num in
        Some (Update.mk x y (x * ofZ 100)%num lightness)
  | None => None
  end.

End ColorPickerSelection.

(** A number of magnitude at most [2^51]: adding or subtracting 1, or
    multiplying an integer by 3, is then exact in doubles too. *)
Definition ordinary (a : num) : bool :=
  within (ofZ (- 2 ^ 51)) (ofZ (2 ^ 51)) a.

(** A point with finite coordinates. *)
Definition finiteVector (v : Vector2.t) : bool :=
  isFinite (Vector2.x v) && isFinite (Vector2.y v).

(** The geometry without its index: every indexed vertex is written out
    ([toNonIndexed]). *)
Definition unindexed (g : BufferGeometry) : BufferGeometry :=
  match index g with
  | Some idx =>
      mkGeometry (flat_map (fun i => take 3 (drop (3 * i) (position g))) idx) None
  | None => g
  end.

(** An extruder for the examples that gives geometries without an index, as
    [THREE.ExtrudeGeometry] does. *)
Definition plainExtrude (shape : Shape) (depth : num) : BufferGeometry :=
  unindexed (wallExtrude shape depth).

(** The number of vertices that the renderer draws, three per triangle: the
    entries of the index, or all vertices when there is no index. *)
Definition drawCount (g : BufferGeometry) : nat :=
  match index g with
  | Some idx => length idx
  | None => count g
  end.

(** ** Auxiliary facts *)

Lemma Qc_eqb_true (a b : Qc) : Qc_eqb a b = true <-> a = b.
Proof.
  unfold Qc_eqb. rewrite Qeq_bool_iff. split.
  - apply Qc_is_canon.
  - intros ->. reflexivity.
Qed.

Lemma Qc_eqb_false (a b : Qc) : Qc_eqb a b = false <-> a <> b.
Proof.
  rewrite <- Qc_eqb_true. destruct (Qc_eqb a b); split; congruence.
Qed.

Lemma Qc_ltb_true (a b : Qc) : Qc_ltb a b = true <-> (a < b)%Qc.
Proof.
  unfold Qc_ltb, Qclt. rewrite negb_true_iff.
  destruct (Qle_bool b a) eqn:E.
  - apply Qle_bool_iff in E. split; [discriminate|].
    intros H. exfalso. exact (Qlt_not_le _ _ H E).
  - split; [|reflexivity]. intros _. apply Qnot_le_lt.
    intros H. apply Qle_bool_iff in H. congruence.
Qed.

Lemma Qc_ltb_false (a b : Qc) : Qc_ltb a b = false <-> (b <= a)%Qc.
Proof.
  unfold Qc_ltb, Qcle. rewrite negb_false_iff. apply Qle_bool_iff.
Qed.

(** A [forEach] that pushes one element per round builds a [map]. *)
Lemma foldl_push {A B} (f : A -> B) (l : list A) (init : list B) :
  foldl (fun acc a => acc ++ [f a]) init l = init ++ map f l.
Proof.
  revert init. induction l as [|a l IH]; intros init; simpl.
  - by rewrite app_nil_r.
  - rewrite IH. by rewrite <- app_assoc.
Qed.

(** Two numbers are equal when their rationals are. *)
Lemma Fin_eq (a b : Qc) : (a == b)%Q -> Fin a = Fin b.
Proof. intros H. f_equal. by apply Qc_is_canon. Qed.

(** Closed equations between numbers, vectors and lists of them. *)
Ltac num_eq :=
  repeat first
    [ reflexivity
    | apply Fin_eq; reflexivity
    | apply f_equal4
    | apply f_equal3
    | apply f_equal2
    | apply f_equal ].

Ltac num_eval :=
  vm_compute;
  repeat match goal with
         | |- _ /\ _ => split
         | |- Fin _ = Fin _ => apply Fin_eq; reflexivity
         | |- Fin _ <> Fin _ =>
             let H := fresh in
             intros H; injection H as H; apply (f_equal this) in H; discriminate
         | |- _ => reflexivity || discriminate
         end.

(** ** Height resolution *)

Lemma truthyTag_Some (v : option string) (h : string) :
  v = Some h -> h <> "" -> truthyTag v = Some h.
Proof. intros -> Hh. destruct h; [congruence | reflexivity]. Qed.

Lemma buildingTypeHeight_positive (t : option string) :
  positiveFinite (buildingTypeHeight t) = true.
Proof.
  unfold buildingTypeHeight. destruct t as [t|]; [|reflexivity].
  repeat match goal with
         | |- context [if ?c then _ else _] => destruct c
         end; reflexivity.
Qed.

(** C2 (as stated) fails: with an unparseable [height] tag the levels tag and
    the building type are not consulted; the result is the default 6, not 9
    and not 20. *)
Lemma getBuildingHeight_unparseable_counterexample :
  getBuildingHeight (taggedBuilding [("height", "abc"); ("building:levels", "3")])
    = ofZ 6
  /\ getBuildingHeight (taggedBuilding [("height", "abc"); ("building:levels", "3")])
    <> ofZ 9
  /\ getBuildingHeight (taggedBuilding [("height", "abc"); ("building", "office")])
    = ofZ 6
  /\ getBuildingHeight (taggedBuilding [("height", "abc"); ("building", "office")])
    <> ofZ 20.
Proof. num_eval. Qed.

(** C2 (amended): for every tag mapping in which the [height] tag is present,
    not empty and not parseable as a number, [getBuildingHeight] returns the
    default 6, whatever the other tags are. *)
Theorem getBuildingHeight_unparseable_height (building : Building) (h : string) :
  tags building !! "height" = Some h ->
  h <> "" ->
  parseFloat h = NaN ->
  getBuildingHeight building = ofZ 6.
Proof.
  intros Hh Hne Hnan. unfold getBuildingHeight.
  rewrite (truthyTag_Some _ h Hh Hne). cbv zeta. by rewrite Hnan.
Qed.

Lemma getBuildingHeight_unparseable_height_witness :
  getBuildingHeight (taggedBuilding [("height", "abc"); ("building:levels", "3")])
    = ofZ 6.
Proof.
  apply (getBuildingHeight_unparseable_height _ "abc");
    [ vm_compute; reflexivity | discriminate | vm_compute; reflexivity ].
Defined.

(** C3 (as stated) fails: a negative, a zero, an infinite and a huge [height]
    tag and a negative levels tag are returned as they are (the levels times
    3): -5, 0, Infinity, Infinity and -6. *)
Lemma getBuildingHeight_not_positive_counterexample :
  getBuildingHeight (taggedBuilding [("height", "-5")]) = ofZ (-5)
  /\ positiveFinite (getBuildingHeight (taggedBuilding [("height", "-5")])) = false
  /\ positiveFinite (getBuildingHeight (taggedBuilding [("height", "0")])) = false
  /\ positiveFinite (getBuildingHeight (taggedBuilding [("height", "Infinity")])) = false
  /\ getBuildingHeight (taggedBuilding [("height", "1e400")]) = Inf false
  /\ positiveFinite (getBuildingHeight (taggedBuilding [("building:levels", "-2")])) = false.
Proof. num_eval. Qed.

Lemma mul_3_not_NaN (a : num) : isNaN a = false -> isNaN (a * ofZ 3)%num = false.
Proof. by destruct a. Qed.

Lemma mul_3_positive (a : num) :
  Num.ltb (ofZ 0) (a * ofZ 3)%num = Num.ltb (ofZ 0) a.
Proof.
  destruct a as [|s|q]; [reflexivity | by destruct s |].
  unfold ofZ. cbn [Num.mul Num.ltb].
  assert ((0 < Q2Qc (inject_Z 3))%Qc) as H3 by reflexivity.
  destruct (Qc_ltb (Q2Qc (inject_Z 0)) q) eqn:E.
  - apply Qc_ltb_true in E. apply Qc_ltb_true.
    replace (Q2Qc (inject_Z 0)) with (0 * Q2Qc (inject_Z 3))%Qc
      by (apply Qc_is_canon; reflexivity).
    by apply Qcmult_lt_compat_r.
  - apply Qc_ltb_false in E. apply Qc_ltb_false.
    replace (Q2Qc (inject_Z 0)) with (0 * Q2Qc (inject_Z 3))%Qc
      by (apply Qc_is_canon; reflexivity).
    apply Qcmult_le_compat_r; [exact E | by apply Qclt_le_weak].
Qed.

Lemma buildingTypeHeight_table (t : option string) :
  buildingTypeHeight t ∈ [ofZ 4; ofZ 6; ofZ 8; ofZ 12; ofZ 15; ofZ 20].
Proof.
  unfold buildingTypeHeight. destruct t as [t|]; [|set_solver].
  repeat match goal with
         | |- context [if ?c then _ else _] => destruct c
         end; set_solver.
Qed.

(** C3 (amended): [getBuildingHeight] is total and never returns NaN.  Its
    result is one of the table values 4, 6, 8, 12, 15 and 20, finite and
    strictly positive, or the parsed [height] tag as it is, or, with no
    [height] tag, the product of the parsed [building:levels] tag and 3.  The
    product is strictly positive exactly when the parsed number is, and it is
    three times that number when the number is at most [2^51] in magnitude.
    Nothing checks the sign or the size of a parsed number. *)
Theorem getBuildingHeight_never_NaN (building : Building) :
  isNaN (getBuildingHeight building) = false
  /\ ((getBuildingHeight building ∈ [ofZ 4; ofZ 6; ofZ 8; ofZ 12; ofZ 15; ofZ 20]
       /\ positiveFinite (getBuildingHeight building) = true)
      \/ (exists h, truthyTag (tags building !! "height") = Some h
                    /\ isNaN (parseFloat h) = false
                    /\ getBuildingHeight building = parseFloat h)
      \/ (exists l, truthyTag (tags building !! "height") = None
                    /\ truthyTag (tags building !! "building:levels") = Some l
                    /\ isNaN (parseInt l) = false
                    /\ Num.ltb (ofZ 0) (getBuildingHeight building)
                       = Num.ltb (ofZ 0) (parseInt l)
                    /\ (ordinary (parseInt l) = true ->
                        getBuildingHeight building = (parseInt l * ofZ 3)%num))).
Proof.
  assert (ofZ 6 ∈ [ofZ 4; ofZ 6; ofZ 8; ofZ 12; ofZ 15; ofZ 20]
          /\ positiveFinite (ofZ 6) = true) as Hdefault
    by (split; [set_solver | reflexivity]).
  unfold getBuildingHeight.
  destruct (truthyTag (tags building !! "height")) as [h|] eqn:Hh.
  - cbv zeta. destruct (isNaN (parseFloat h)) eqn:Hp; cbn [negb].
    + split; [reflexivity | by left].
    + split; [exact Hp|]. right. left. by exists h.
  - destruct (truthyTag (tags building !! "building:levels")) as [l|] eqn:Hl.
    + cbv zeta. destruct (isNaN (parseInt l)) eqn:Hp; cbn [negb].
      * split; [reflexivity | by left].
      * split; [by apply mul_3_not_NaN|]. right. right. exists l.
        repeat split; try done. apply mul_3_positive.
    + pose proof (buildingTypeHeight_positive (tags building !! "building")) as Hb.
      split.
      * unfold positiveFinite in Hb. by destruct (buildingTypeHeight _).
      * left. split; [apply buildingTypeHeight_table | exact Hb].
Qed.

Lemma getBuildingHeight_never_NaN_witness :
  isNaN (getBuildingHeight (taggedBuilding [("building:levels", "-1")])) = false
  /\ getBuildingHeight (taggedBuilding [("building:levels", "-1")]) = ofZ (-3).
Proof.
  destruct (getBuildingHeight_never_NaN (taggedBuilding [("building:levels", "-1")]))
    as [HNaN [[_ H]|[(h & H & _)|(l & _ & Hl & _ & _ & H)]]].
  - vm_compute in H. discriminate.
  - vm_compute in H. discriminate.
  - split; [exact HNaN|].
    assert (l = "-1") as -> by (vm_compute in Hl; congruence).
    rewrite H by reflexivity. vm_compute. num_eq.
Defined.

(** ** Projection *)

Lemma Building3D_points_map building bounds dims :
  Building3D_points building bounds (Some dims)
  = map (fun c => project c bounds dims) (geometry building).
Proof. unfold Building3D_points. by rewrite foldl_push. Qed.

Lemma sub_Fin (a b : Qc) : (Fin a - Fin b)%num = Fin (a - b)%Qc.
Proof. reflexivity. Qed.

Lemma div_Fin (a b : Qc) : b <> 0%Qc -> (Fin a / Fin b)%num = Fin (a / b)%Qc.
Proof. intros Hb. simpl. apply Qc_eqb_false in Hb. by rewrite Hb. Qed.

Lemma Qc_sub_ne_0 (a b : Qc) : a <> b -> (a - b)%Qc <> 0%Qc.
Proof.
  intros Hab H. apply Hab.
  rewrite <- (Qcplus_0_l b), <- H. ring.
Qed.

Lemma Qc_half : Q2Qc (1 # 2) = (1 / (1 + 1))%Qc.
Proof. apply Qc_is_canon. reflexivity. Qed.

Lemma Qc_two : Q2Qc (inject_Z 2) = (1 + 1)%Qc.
Proof. apply Qc_is_canon. reflexivity. Qed.

Lemma Qc_two_ne_0 : (1 + 1)%Qc <> 0%Qc.
Proof. intros H. apply (f_equal this) in H. discriminate. Qed.

(** The projection of a point with finite coordinates in finite,
    non-degenerate bounds. *)
Lemma project_Fin (la lo n s e w wd dp : Qc) :
  e <> w -> n <> s ->
  project (mkCoord (Fin la) (Fin lo)) (mkBounds (Fin n) (Fin s) (Fin e) (Fin w))
          (mkDims (Fin wd) (Fin dp))
  = Vector2.mk (Fin (((lo - w) / (e - w) - Q2Qc (1 # 2)) * wd)%Qc)
               (Fin (- ((la - s) / (n - s) - Q2Qc (1 # 2)) * dp)%Qc).
Proof.
  intros He Hn. unfold project. cbn [lat lon north south east west width depth].
  rewrite !sub_Fin.
  rewrite (div_Fin _ _ (Qc_sub_ne_0 _ _ He)), (div_Fin _ _ (Qc_sub_ne_0 _ _ Hn)).
  reflexivity.
Qed.

(** C4: the projection of [Building3D] is the formula of the specification;
    in finite bounds with east <> west and north <> south the centre of the
    bounds is projected to (0, 0), the northwest corner to
    (-width/2, -depth/2) and the southeast corner to (width/2, depth/2). *)
Theorem projection_formula_center_corners (n s e w wd dp : Qc) :
  e <> w -> n <> s ->
  let bounds := mkBounds (Fin n) (Fin s) (Fin e) (Fin w) in
  let dims := mkDims (Fin wd) (Fin dp) in
  let two := Q2Qc (inject_Z 2) in
  (forall building bounds' dims',
      Building3D_points building bounds' (Some dims')
      = map (fun c => project c bounds' dims') (geometry building))
  /\ project (mkCoord (Fin ((s + n) / two)%Qc) (Fin ((w + e) / two)%Qc)) bounds dims
     = Vector2.mk (Fin 0%Qc) (Fin 0%Qc)
  /\ project (mkCoord (Fin n) (Fin w)) bounds dims
     = Vector2.mk (Fin (- (wd / two))%Qc) (Fin (- (dp / two))%Qc)
  /\ project (mkCoord (Fin s) (Fin e)) bounds dims
     = Vector2.mk (Fin (wd / two)%Qc) (Fin (dp / two)%Qc).
Proof.
  intros He Hn bounds dims two. subst bounds dims two.
  pose proof (Qc_sub_ne_0 _ _ He) as He'.
  pose proof (Qc_sub_ne_0 _ _ Hn) as Hn'.
  pose proof Qc_two_ne_0 as H2.
  split; [exact Building3D_points_map|].
  rewrite !project_Fin by assumption.
  rewrite Qc_half, Qc_two.
  repeat split; f_equal; f_equal; field; auto.
Qed.

Lemma projection_formula_center_corners_witness :
  project (mkCoord (ofQ (1 # 2)) (ofQ (1 # 2)))
          (mkBounds (ofZ 1) (ofZ 0) (ofZ 1) (ofZ 0)) (mkDims (ofZ 100) (ofZ 100))
  = Vector2.mk (ofZ 0) (ofZ 0).
Proof.
  pose proof (projection_formula_center_corners
                (Q2Qc 1) (Q2Qc 0) (Q2Qc 1) (Q2Qc 0) (Q2Qc 100) (Q2Qc 100)) as H.
  destruct H as (_ & Hc & _).
  - intros H. apply (f_equal this) in H. discriminate.
  - intros H. apply (f_equal this) in H. discriminate.
  - etransitivity; [|exact Hc]. vm_compute. repeat f_equal; by apply Qc_is_canon.
Defined.

(** ** Height mapping *)

Lemma add_Fin (a b : Qc) : (Fin a + Fin b)%num = Fin (a + b)%Qc.
Proof. reflexivity. Qed.

Lemma mul_Fin (a b : Qc) : (Fin a * Fin b)%num = Fin (a * b)%Qc.
Proof. reflexivity. Qed.

(** The mapped height for finite arguments and a source range that is not
    degenerate. *)
Lemma Building3D_height_Fin (h smin smax tmin tmax : Qc) :
  smin <> smax ->
  Building3D_height (Fin h) (HeightMapping.mk (Fin smin) (Fin smax) (Fin tmin) (Fin tmax))
  = Fin (tmin + (h - smin) / (smax - smin) * (tmax - tmin))%Qc.
Proof.
  intros Hs. unfold Building3D_height.
  cbn [HeightMapping.min HeightMapping.max HeightMapping.minMM HeightMapping.maxMM].
  rewrite !sub_Fin, div_Fin, mul_Fin, add_Fin; [reflexivity|].
  apply Qc_sub_ne_0. congruence.
Qed.

Lemma Qc_leb_Fin (a b : Qc) : (a <= b)%Qc -> Num.leb (Fin a) (Fin b) = true.
Proof.
  intros H. unfold Num.leb. simpl.
  destruct (Qc_ltb a b) eqn:E; [reflexivity|]. simpl.
  apply Qc_eqb_true. apply Qc_ltb_false in E. by apply Qcle_antisym.
Qed.

(** C5: for a source range with min < max and a target range with
    min <= max, the mapped height is monotone in the height:
    h1 < h2 implies mapHeight(h1) <= mapHeight(h2). *)
Theorem Building3D_height_monotone (smin smax tmin tmax h1 h2 : Qc) :
  (smin < smax)%Qc -> (tmin <= tmax)%Qc -> (h1 < h2)%Qc ->
  let m := HeightMapping.mk (Fin smin) (Fin smax) (Fin tmin) (Fin tmax) in
  Num.leb (Building3D_height (Fin h1) m) (Building3D_height (Fin h2) m) = true.
Proof.
  intros Hs Ht Hh m. subst m.
  pose proof (Qclt_not_eq _ _ Hs) as Hne.
  rewrite !Building3D_height_Fin by assumption.
  apply Qc_leb_Fin.
  apply Qcplus_le_compat; [apply Qcle_refl|].
  apply Qcmult_le_compat_r.
  - unfold Qcdiv. apply Qcmult_le_compat_r.
    + apply Qclt_le_weak.
      unfold Qcminus. by apply Qcplus_lt_mono_r.
    + apply Qclt_le_weak. apply Qcinv_pos.
      apply Qclt_minus_iff in Hs. exact Hs.
  - apply Qcle_minus_iff in Ht. exact Ht.
Qed.

Lemma Building3D_height_monotone_witness :
  Num.leb
    (Building3D_height (ofZ 4) (HeightMapping.mk (ofZ 4) (ofZ 40) (ofZ 5) (ofZ 30)))
    (Building3D_height (ofZ 40) (HeightMapping.mk (ofZ 4) (ofZ 40) (ofZ 5) (ofZ 30)))
  = true.
Proof.
  apply (Building3D_height_monotone
           (Q2Qc (inject_Z 4)) (Q2Qc (inject_Z 40)) (Q2Qc (inject_Z 5))
           (Q2Qc (inject_Z 30)) (Q2Qc (inject_Z 4)) (Q2Qc (inject_Z 40)));
    vm_compute; congruence.
Defined.

(** ** One projection for buildings, foundation and track *)

Lemma Foundation3D_points_map building bounds dims :
  Foundation3D_points building bounds (Some dims)
  = map (fun c => project c bounds dims) (geometry building).
Proof. unfold Foundation3D_points. by rewrite foldl_push. Qed.

Lemma GPXTrack3D_pathPoints_map points bounds dims :
  GPXTrack3D_pathPoints points bounds (Some dims)
  = map (fun p => project (coordOfGPXPoint p) bounds dims) points.
Proof. reflexivity. Qed.

(** C9: for the same coordinates, bounds and model dimensions the building
    extruder, the foundation builder and the track extruder compute the same
    planar points, each the projection [project] of the coordinate with the
    scales in use; being functions, they give the same result on the same
    input. *)
Theorem projection_shared (points : list GPXPoint.t) (t : gmap string string)
    (bounds : OSMBounds) (modelDimensions : option ModelDimensions) :
  let building := mkBuilding (map coordOfGPXPoint points) t in
  let dims := mkDims (scaleX modelDimensions) (scaleZ modelDimensions) in
  Building3D_points building bounds modelDimensions
  = Foundation3D_points building bounds modelDimensions
  /\ Building3D_points building bounds modelDimensions
     = GPXTrack3D_pathPoints points bounds modelDimensions
  /\ GPXTrack3D_pathPoints points bounds modelDimensions
     = map (fun p => project (coordOfGPXPoint p) bounds dims) points.
Proof.
  intros building dims. split; [reflexivity|]. split; [|reflexivity].
  unfold Building3D_points, GPXTrack3D_pathPoints. rewrite foldl_push.
  subst building. cbn [geometry]. rewrite map_map. reflexivity.
Qed.

(** ** Merging the foundation geometries *)

(** Reading the first [n] cells of an array, one index at a time. *)
Lemma map_lookup_seq {A} (d : A) (l : list A) (n : nat) :
  n <= length l ->
  map (fun i => default d (l !! i)) (seq 0 n) = take n l.
Proof.
  revert l. induction n as [|n IH]; intros l Hn; [reflexivity|].
  destruct l as [|a l]; simpl in Hn; [lia|].
  simpl. f_equal.
  rewrite <- seq_shift, map_map. simpl. apply IH. lia.
Qed.

Lemma count_bound (g : BufferGeometry) : count g * 3 <= length (position g).
Proof.
  unfold count.
  pose proof (Nat.Div0.mul_div_le (length (position g)) 3). lia.
Qed.

Lemma copiedPositions_length (g : BufferGeometry) :
  length (copiedPositions g) = count g * 3.
Proof.
  unfold copiedPositions. rewrite length_take. pose proof (count_bound g). lia.
Qed.

Lemma copiedPositions_valid (g : BufferGeometry) :
  validGeometry g -> copiedPositions g = position g.
Proof.
  intros [Hlen _]. unfold copiedPositions. apply firstn_all2. lia.
Qed.

(** One round of the merge: the vertices and the shifted indices of the
    geometry are appended, and the offset grows by its vertex count. *)
Lemma mergeStep_spec (st : MergeState) (g : BufferGeometry) :
  mergeStep st g
  = mkMergeState (positions st ++ copiedPositions g)
      (indices st ++ map (fun i => i + vertexOffset st) (default [] (index g)))
      (vertexOffset st + count g).
Proof.
  unfold mergeStep. f_equal.
  - rewrite foldl_push. f_equal. apply map_lookup_seq, count_bound.
  - destruct (index g) as [arr|]; simpl; [|by rewrite app_nil_r].
    rewrite (foldl_push (fun i => default 0 (arr !! i) + vertexOffset st)).
    f_equal.
    rewrite <- (map_map (fun i => default 0 (arr !! i)) (fun i => i + vertexOffset st)).
    rewrite map_lookup_seq by lia. by rewrite firstn_all.
Qed.

(** The invariant of the merge loop. *)
Lemma merge_loop_spec (gs : list BufferGeometry) (st : MergeState) :
  foldl mergeStep st gs
  = mkMergeState (positions st ++ concat (map copiedPositions gs))
      (indices st ++ shiftedIndices (vertexOffset st) gs)
      (vertexOffset st + totalCount gs).
Proof.
  revert st. induction gs as [|g gs IH]; intros st.
  - simpl. rewrite !app_nil_r, Nat.add_0_r. by destruct st.
  - simpl. rewrite IH, mergeStep_spec. simpl.
    f_equal; rewrite <- ?app_assoc; try reflexivity. lia.
Qed.

Lemma concat_copiedPositions_length (gs : list BufferGeometry) :
  length (concat (map copiedPositions gs)) = totalCount gs * 3.
Proof.
  induction gs as [|g gs IH]; [reflexivity|].
  simpl. rewrite length_app, IH, copiedPositions_length. lia.
Qed.

(** Valid indices stay valid when shifted. *)
Lemma shiftedIndices_bound (gs : list BufferGeometry) (offset : nat) :
  Forall validGeometry gs ->
  Forall (fun i => i < offset + totalCount gs) (shiftedIndices offset gs).
Proof.
  intros Hv. revert offset. induction Hv as [|g gs [_ Hg] _ IH]; intros offset.
  - constructor.
  - simpl. apply Forall_app. split.
    + apply Forall_map. eapply Forall_impl; [exact Hg|]. simpl. intros i Hi. lia.
    + eapply Forall_impl; [apply IH|]. simpl. intros i Hi. lia.
Qed.

(** The block of indices of the [k]-th geometry is found in the merged
    index at the sum of the index counts before it, in its own order, every
    index shifted by the vertex count before it. *)
Lemma shiftedIndices_lookup (gs : list BufferGeometry) (offset k j : nat)
    (g : BufferGeometry) (i : nat) :
  gs !! k = Some g ->
  default [] (index g) !! j = Some i ->
  shiftedIndices offset gs
    !! (length (shiftedIndices 0 (take k gs)) + j)
  = Some (i + (offset + totalCount (take k gs))).
Proof.
  revert offset k. induction gs as [|g0 gs IH]; intros offset k Hk Hj.
  - by rewrite lookup_nil in Hk.
  - destruct k as [|k]; simpl in *.
    + injection Hk as ->. rewrite lookup_app_l.
      * rewrite list_lookup_fmap, Hj. simpl. f_equal. lia.
      * rewrite length_map. by eapply lookup_lt_Some.
    + rewrite length_app, length_map.
      rewrite lookup_app_r by (rewrite length_map; lia).
      rewrite length_map.
      assert (forall o o', length (shiftedIndices o (take k gs))
                           = length (shiftedIndices o' (take k gs))) as Hl.
      { clear. generalize (take k gs). intros l.
        induction l as [|a l IHl]; intros o o'; [reflexivity|].
        simpl. rewrite !length_app, !length_map. f_equal. apply IHl. }
      rewrite (Hl (count g0) 0).
      match goal with
      | |- shiftedIndices _ _ !! ?n = _ =>
          replace n with (length (shiftedIndices 0 (take k gs)) + j) by lia
      end.
      rewrite (IH (offset + count g0) k Hk Hj). f_equal. lia.
Qed.

Lemma Foundation3D_geometries_map
    (ExtrudeGeometry : Shape -> num -> BufferGeometry) (allShapes : list Shape) :
  Foundation3D_geometries ExtrudeGeometry allShapes
  = map (fun shape => ExtrudeGeometry shape (ofZ 2)) allShapes.
Proof. unfold Foundation3D_geometries. by rewrite foldl_push. Qed.

(** The merge on geometries with an index: no shape gives the empty
    geometry; a single extruded geometry is
    returned as it is; two or more geometries are merged into one buffer whose
    vertices are theirs in input order and whose index holds their indices in
    input order, each shifted by the number of vertices before its geometry.
    So the vertex count is the sum of the counts, the indices of each geometry
    keep their order (the winding of its triangles), and when the indices of
    every input point at its own vertices, every merged index is at most the
    sum minus one. *)
Theorem Foundation3D_merge_spec
    (ExtrudeGeometry : Shape -> num -> BufferGeometry) (allShapes : list Shape) :
  let gs := map (fun shape => ExtrudeGeometry shape (ofZ 2)) allShapes in
  let merged := Foundation3D_merge ExtrudeGeometry allShapes in
  2 <= length allShapes ->
  Foundation3D_merge ExtrudeGeometry [] = emptyGeometry
  /\ (forall shape,
        Foundation3D_merge ExtrudeGeometry [shape] = ExtrudeGeometry shape (ofZ 2))
  /\ position merged = concat (map copiedPositions gs)
  /\ index merged = Some (shiftedIndices 0 gs)
  /\ count merged = totalCount gs
  /\ (forall k j g i,
        gs !! k = Some g ->
        default [] (index g) !! j = Some i ->
        shiftedIndices 0 gs !! (length (shiftedIndices 0 (take k gs)) + j)
        = Some (i + totalCount (take k gs)))
  /\ (Forall validGeometry gs ->
        position merged = concat (map position gs)
        /\ Forall (fun i => i <= totalCount gs - 1) (shiftedIndices 0 gs)).
Proof.
  intros gs merged Hlen.
  split; [reflexivity|]. split; [reflexivity|].
  assert (merged
          = mkGeometry (concat (map copiedPositions gs)) (Some (shiftedIndices 0 gs)))
    as Hmerged.
  { subst merged. unfold Foundation3D_merge.
    rewrite Foundation3D_geometries_map. fold gs.
    destruct allShapes as [|s1 [|s2 rest]]; simpl in Hlen; try lia.
    subst gs. cbn [map length Nat.eqb mergeGeometries].
    rewrite merge_loop_spec. reflexivity. }
  rewrite Hmerged. cbn [position index].
  split; [reflexivity|]. split; [reflexivity|]. split; [|split].
  - unfold count at 1. cbn [position].
    rewrite concat_copiedPositions_length. apply Nat.div_mul. lia.
  - intros k j g i Hk Hj.
    rewrite (shiftedIndices_lookup gs 0 k j g i Hk Hj). reflexivity.
  - intros Hvalid. split.
    + clear -Hvalid. induction Hvalid as [|g l Hg _ IH]; [reflexivity|].
      simpl. by rewrite IH, (copiedPositions_valid g Hg).
    + eapply Forall_impl; [exact (shiftedIndices_bound gs 0 Hvalid)|].
      simpl. intros i Hi. lia.
Qed.

Lemma Foundation3D_merge_spec_witness :
  count (Foundation3D_merge wallExtrude [triangleShape; squareShape]) = 14
  /\ Forall (fun i => i <= 13)
       (default [] (index (Foundation3D_merge wallExtrude [triangleShape; squareShape]))).
Proof.
  destruct (Foundation3D_merge_spec wallExtrude [triangleShape; squareShape])
    as (_ & _ & _ & Hidx & Hcount & _ & Hvalid).
  - simpl. lia.
  - split; [exact Hcount|]. rewrite Hidx. apply Hvalid.
    repeat constructor; vm_compute; lia.
Defined.

Lemma shiftedIndices_without_index (gs : list BufferGeometry) (offset : nat) :
  Forall (fun g => index g = None) gs -> shiftedIndices offset gs = [].
Proof.
  intros H. revert offset. induction H as [|g gs Hg _ IH]; intros offset;
    [reflexivity|].
  simpl. by rewrite Hg, IH.
Qed.

Lemma drawCount_without_index (gs : list BufferGeometry) :
  Forall (fun g => index g = None) gs ->
  foldr (fun g n => drawCount g + n) 0 gs = totalCount gs.
Proof.
  induction 1 as [|g gs Hg _ IH]; [reflexivity|].
  simpl. unfold drawCount at 1. by rewrite Hg, IH.
Qed.

(** C6: the code at the geometries it really merges.  The geometries of
    [THREE.ExtrudeGeometry] have no index: their triangles are their vertices
    taken three at a time.  For two or more of them the merge copies every
    vertex, so the vertex count is the sum of the counts, but it skips the
    missing indices and still sets the index it has collected, which is
    empty: the inputs draw all their vertices, the merged geometry draws
    none, and no triangle of any input is left. *)
Theorem Foundation3D_merge_without_index
    (ExtrudeGeometry : Shape -> num -> BufferGeometry) (allShapes : list Shape) :
  let gs := map (fun shape => ExtrudeGeometry shape (ofZ 2)) allShapes in
  let merged := Foundation3D_merge ExtrudeGeometry allShapes in
  (forall shape depth, index (ExtrudeGeometry shape depth) = None) ->
  2 <= length allShapes ->
  position merged = concat (map copiedPositions gs)
  /\ count merged = totalCount gs
  /\ foldr (fun g n => drawCount g + n) 0 gs = totalCount gs
  /\ index merged = Some []
  /\ drawCount merged = 0.
Proof.
  intros gs merged Hnone Hlen.
  assert (Forall (fun g => index g = None) gs) as Hgs.
  { subst gs. apply Forall_map, Forall_forall. intros shape _. apply Hnone. }
  assert (merged
          = mkGeometry (concat (map copiedPositions gs)) (Some (shiftedIndices 0 gs)))
    as ->.
  { subst merged. unfold Foundation3D_merge.
    rewrite Foundation3D_geometries_map. fold gs. clear Hgs.
    destruct allShapes as [|s1 [|s2 rest]]; simpl in Hlen; try lia.
    subst gs. cbn [map length Nat.eqb mergeGeometries].
    rewrite merge_loop_spec. reflexivity. }
  rewrite (shiftedIndices_without_index gs 0 Hgs).
  cbn [position index]. split; [reflexivity|]. split; [|split].
  - unfold count. cbn [position].
    rewrite concat_copiedPositions_length. apply Nat.div_mul. lia.
  - by apply drawCount_without_index.
  - by split.
Qed.

Lemma Foundation3D_merge_without_index_witness :
  count (Foundation3D_merge plainExtrude [triangleShape; squareShape]) = 42
  /\ drawCount (plainExtrude triangleShape (ofZ 2)) = 18
  /\ drawCount (plainExtrude squareShape (ofZ 2)) = 24
  /\ drawCount (Foundation3D_merge plainExtrude [triangleShape; squareShape]) = 0.
Proof.
  destruct (Foundation3D_merge_without_index plainExtrude [triangleShape; squareShape])
    as (_ & Hcount & _ & _ & Hdraw).
  - reflexivity.
  - simpl. lia.
  - split; [exact Hcount|]. split; [reflexivity|]. split; [reflexivity | exact Hdraw].
Defined.

(** ** Short footprints and short tracks *)

Lemma Foundation3D_points_length building bounds modelDimensions :
  length (Foundation3D_points building bounds modelDimensions)
  = length (geometry building).
Proof. unfold Foundation3D_points. by rewrite foldl_push, app_nil_l, length_map. Qed.

Lemma Foundation3D_allShapes_fold buildings bounds modelDimensions
    (acc : list Shape) :
  foldl (fun allShapes building =>
           if 2 <? length (geometry building) then
             let points := Foundation3D_points building bounds modelDimensions in
             if 2 <? length points then allShapes ++ [points] else allShapes
           else allShapes)
        acc buildings
  = acc ++ map (fun b => Foundation3D_points b bounds modelDimensions)
               (filter (fun b => 2 < length (geometry b)) buildings).
Proof.
  revert acc. induction buildings as [|b l IH]; intros acc.
  - simpl. symmetry. apply app_nil_r.
  - simpl. rewrite Foundation3D_points_length, IH, filter_cons.
    destruct (decide (2 < length (geometry b))) as [Hb|Hb].
    + apply Nat.ltb_lt in Hb as Hb'. rewrite Hb'. simpl. by rewrite <- app_assoc.
    + apply Nat.ltb_nlt in Hb as Hb'. by rewrite Hb'.
Qed.

(** [Foundation3D] keeps the footprints with more than two vertices, in
    their order, and drops the others. *)
Lemma Foundation3D_allShapes_filter buildings bounds modelDimensions :
  Foundation3D_allShapes buildings bounds modelDimensions
  = map (fun b => Foundation3D_points b bounds modelDimensions)
        (filter (fun b => 2 < length (geometry b)) buildings).
Proof. apply Foundation3D_allShapes_fold. Qed.

(** [Foundation3D] as a whole: the footprints with more than two vertices
    are projected, extruded and merged; the others are skipped. *)
Lemma Foundation3D_skips_short_footprints
    (ExtrudeGeometry : Shape -> num -> BufferGeometry)
    buildings bounds modelDimensions :
  Foundation3D ExtrudeGeometry buildings bounds modelDimensions
  = Foundation3D_merge ExtrudeGeometry
      (map (fun b => Foundation3D_points b bounds modelDimensions)
           (filter (fun b => 2 < length (geometry b)) buildings)).
Proof.
  unfold Foundation3D. rewrite Foundation3D_allShapes_filter.
  by destruct buildings.
Qed.

(** ** The default model dimensions *)

(** C10: with no [modelDimensions] the scales are 1000 and 1000 in the three
    components: the building points, the foundation shapes and the track
    points are the projection [project] with the dimensions 1000 by 1000, and
    the three components give what they give for
    [{ width: 1000, depth: 1000 }].  In the unit bounds the southeast corner
    is projected to (500, 500), and the foundation of one triangular footprint
    is the extrusion of its corners at -500 and 500. *)
Theorem default_model_dimensions
    (ExtrudeGeometry : Shape -> num -> BufferGeometry) (Math_sqrt : num -> num)
    (building : Building) (buildings : list Building) (points : list GPXPoint.t)
    (bounds : OSMBounds) (originalHeight strokeWidth : num)
    (heightMapping : HeightMapping.t) (pathExtrusionHeight : option num) :
  let dims := Some (mkDims (ofZ 1000) (ofZ 1000)) in
  let project1000 c := project c bounds (mkDims (ofZ 1000) (ofZ 1000)) in
  let triangle :=
    mkBuilding [mkCoord (ofZ 0) (ofZ 0); mkCoord (ofZ 1) (ofZ 1); mkCoord (ofZ 0) (ofZ 1)]
               ∅ in
  let corners :=
    [Vector2.mk (ofZ (-500)) (ofZ 500); Vector2.mk (ofZ 500) (ofZ (-500));
     Vector2.mk (ofZ 500) (ofZ 500)] in
  scaleX None = ofZ 1000 /\ scaleZ None = ofZ 1000
  /\ Building3D ExtrudeGeometry building bounds None originalHeight heightMapping
     = Building3D ExtrudeGeometry building bounds dims originalHeight heightMapping
  /\ Foundation3D ExtrudeGeometry buildings bounds None
     = Foundation3D ExtrudeGeometry buildings bounds dims
  /\ GPXTrack3D ExtrudeGeometry Math_sqrt points bounds strokeWidth None
       pathExtrusionHeight
     = GPXTrack3D ExtrudeGeometry Math_sqrt points bounds strokeWidth dims
         pathExtrusionHeight
  /\ Building3D_points (mkBuilding [mkCoord (ofZ 0) (ofZ 1)] ∅) unitBounds None
     = [Vector2.mk (ofZ 500) (ofZ 500)]
  /\ GPXTrack3D_pathPoints [GPXPoint.mk (ofZ 0) (ofZ 1) None] unitBounds None
     = [Vector2.mk (ofZ 500) (ofZ 500)]
  /\ Building3D_points building bounds None = map project1000 (geometry building)
  /\ Foundation3D_allShapes buildings bounds None
     = map (fun b => map project1000 (geometry b))
           (filter (fun b => 2 < length (geometry b)) buildings)
  /\ Foundation3D ExtrudeGeometry buildings bounds None
     = Foundation3D_merge ExtrudeGeometry
         (map (fun b => map project1000 (geometry b))
              (filter (fun b => 2 < length (geometry b)) buildings))
  /\ GPXTrack3D_pathPoints points bounds None
     = map (fun p => project1000 (coordOfGPXPoint p)) points
  /\ Foundation3D_allShapes [triangle] unitBounds None = [corners]
  /\ Foundation3D ExtrudeGeometry [triangle] unitBounds None
     = ExtrudeGeometry corners (ofZ 2)
  /\ Building3D ExtrudeGeometry triangle unitBounds None originalHeight heightMapping
     = ExtrudeGeometry corners (Building3D_height originalHeight heightMapping).
Proof.
  intros dims project1000 triangle corners.
  assert (forall b, Building3D_points b bounds None = map project1000 (geometry b))
    as Hpoints.
  { intros b. change (Building3D_points b bounds None)
      with (Building3D_points b bounds (Some (mkDims (ofZ 1000) (ofZ 1000)))).
    apply Building3D_points_map. }
  assert (Building3D_points triangle unitBounds None = corners) as Htriangle
    by (vm_compute; num_eq).
  repeat split; try reflexivity.
  - vm_compute; num_eq.
  - vm_compute; num_eq.
  - apply Hpoints.
  - rewrite Foundation3D_allShapes_filter. apply map_ext. intros b. apply Hpoints.
  - rewrite Foundation3D_skips_short_footprints. f_equal.
    apply map_ext. intros b. apply Hpoints.
  - by rewrite Foundation3D_allShapes_filter, filter_cons_True, filter_nil
      by (simpl; lia); simpl; f_equal.
  - rewrite Foundation3D_skips_short_footprints.
    rewrite filter_cons_True, filter_nil by (simpl; lia).
    cbn [map]. change (Foundation3D_points triangle unitBounds None)
      with (Building3D_points triangle unitBounds None).
    by rewrite Htriangle.
  - unfold Building3D. by rewrite Htriangle.
Qed.

(** [Scene3D] renders one [Building3D] per building, whatever its footprint. *)
Lemma Scene3D_buildingMeshes_length
    (ExtrudeGeometry : Shape -> num -> BufferGeometry) (Math_sqrt : num -> num)
    data bounds gpxPoints strokeWidth modelDimensions buildingHeightRange
    pathExtrusionHeight :
  length (buildingMeshes
            (Scene3D ExtrudeGeometry Math_sqrt (Some data) (Some bounds) gpxPoints
               strokeWidth modelDimensions buildingHeightRange pathExtrusionHeight))
  = length (buildings data).
Proof. simpl. apply length_map. Qed.

(** C7: the code at a footprint of two vertices.  [Foundation3D] skips it
    (the foundation is the empty geometry), but [Scene3D] still renders a
    [Building3D] for it, which extrudes the outline of two points. *)
Theorem short_footprint_not_skipped
    (ExtrudeGeometry : Shape -> num -> BufferGeometry) (Math_sqrt : num -> num) :
  let short := mkBuilding [mkCoord (ofZ 0) (ofZ 0); mkCoord (ofZ 1) (ofZ 1)] ∅ in
  let scene :=
    Scene3D ExtrudeGeometry Math_sqrt (Some (mkOSMData [short])) (Some unitBounds)
      None None None (Some (HeightRange.mk (ofZ 5) (ofZ 30))) None in
  length (geometry short) = 2
  /\ foundationMesh scene = Some emptyGeometry
  /\ buildingMeshes scene
     = [ExtrudeGeometry
          [Vector2.mk (ofZ (-500)) (ofZ 500); Vector2.mk (ofZ 500) (ofZ (-500))]
          (ofQ (35 # 2))].
Proof.
  intros short scene. split; [reflexivity|]. split; [reflexivity|].
  vm_compute. num_eq.
Qed.

(** C8: a track of fewer than two points gives the empty geometry, with no
    vertex and no index. *)
Theorem GPXTrack3D_short_track
    (ExtrudeGeometry : Shape -> num -> BufferGeometry) (Math_sqrt : num -> num)
    (points : list GPXPoint.t) (bounds : OSMBounds) (strokeWidth : num)
    (modelDimensions : option ModelDimensions) (pathExtrusionHeight : option num) :
  length points < 2 ->
  let trackGeometry :=
    GPXTrack3D ExtrudeGeometry Math_sqrt points bounds strokeWidth modelDimensions
      pathExtrusionHeight in
  trackGeometry = emptyGeometry
  /\ position trackGeometry = []
  /\ index trackGeometry = None
  /\ count trackGeometry = 0.
Proof.
  intros Hlen trackGeometry. subst trackGeometry. unfold GPXTrack3D.
  apply Nat.ltb_lt in Hlen. rewrite Hlen. repeat split.
Qed.

Lemma GPXTrack3D_short_track_witness :
  GPXTrack3D wallExtrude (fun a => a) [GPXPoint.mk (ofQ (1 # 2)) (ofQ (1 # 2)) None]
    unitBounds (ofZ 2) None None
  = emptyGeometry.
Proof.
  apply (GPXTrack3D_short_track wallExtrude (fun a => a)
           [GPXPoint.mk (ofQ (1 # 2)) (ofQ (1 # 2)) None] unitBounds (ofZ 2) None None).
  simpl. lia.
Defined.

(** ** The source range of the height mapping *)

Lemma Math_min_fold_Fin (l : list num) (q : Qc) :
  Forall (fun a => isFinite a = true) l ->
  exists q', foldl (fun lowest n => if Num.ltb n lowest then n else lowest) (Fin q) l
             = Fin q' /\ (q' <= q)%Qc.
Proof.
  intros Hl. revert q. induction Hl as [|a l Ha _ IH]; intros q.
  - exists q. split; [reflexivity | apply Qcle_refl].
  - destruct a as [| |x]; try discriminate. simpl.
    destruct (Qc_ltb x q) eqn:E.
    + destruct (IH x) as (q' & -> & Hq'). exists q'. split; [reflexivity|].
      apply Qc_ltb_true in E. eapply Qcle_trans; [exact Hq'|]. by apply Qclt_le_weak.
    + apply IH.
Qed.

Lemma Math_max_fold_Fin (l : list num) (q : Qc) :
  Forall (fun a => isFinite a = true) l ->
  exists q', foldl (fun highest n => if Num.ltb highest n then n else highest) (Fin q) l
             = Fin q' /\ (q <= q')%Qc.
Proof.
  intros Hl. revert q. induction Hl as [|a l Ha _ IH]; intros q.
  - exists q. split; [reflexivity | apply Qcle_refl].
  - destruct a as [| |x]; try discriminate. simpl.
    destruct (Qc_ltb q x) eqn:E.
    + destruct (IH x) as (q' & -> & Hq'). exists q'. split; [reflexivity|].
      apply Qc_ltb_true in E. eapply Qcle_trans; [|exact Hq']. by apply Qclt_le_weak.
    + apply IH.
Qed.

Lemma existsb_isNaN_finite (l : list num) :
  Forall (fun a => isFinite a = true) l -> existsb isNaN l = false.
Proof.
  induction 1 as [|a l Ha _ IH]; [reflexivity|].
  simpl. rewrite IH. by destruct a.
Qed.

(** The lowest and the highest of finite numbers are finite and ordered. *)
Lemma Math_min_max_Fin (l : list num) :
  l <> [] ->
  Forall (fun a => isFinite a = true) l ->
  exists lo hi, Math_min l = Fin lo /\ Math_max l = Fin hi /\ (lo <= hi)%Qc.
Proof.
  intros Hne Hl. unfold Math_min, Math_max.
  rewrite (existsb_isNaN_finite l Hl).
  destruct Hl as [|a l Ha Hl]; [congruence|].
  destruct a as [| |x]; try discriminate. simpl.
  destruct (Math_min_fold_Fin l x Hl) as (lo & -> & Hlo).
  destruct (Math_max_fold_Fin l x Hl) as (hi & -> & Hhi).
  exists lo, hi. repeat split. by eapply Qcle_trans.
Qed.

(** When a target range is given and the heights of the buildings are
    finite, the source range computed by [Scene3D] has min < max. *)
Lemma heightMapping_range_ordered (data : OSMData) (range : HeightRange.t) :
  buildings data <> [] ->
  Forall (fun b => isFinite (getBuildingHeight b) = true) (buildings data) ->
  exists m, heightMapping (Some data) (Some range) = Some m
            /\ Num.ltb (HeightMapping.min m) (HeightMapping.max m) = true.
Proof.
  intros Hne Hfin. unfold heightMapping.
  destruct (buildings data) as [|b l] eqn:Hb; [congruence|].
  cbn [length Nat.eqb].
  destruct (Math_min_max_Fin (map getBuildingHeight (b :: l))) as (lo & hi & Hlo & Hhi & Hle).
  - discriminate.
  - by apply Forall_map.
  - cbv zeta. rewrite Hlo, Hhi. eexists. split; [reflexivity|].
    cbn [HeightMapping.min HeightMapping.max].
    destruct (Num.eqb (Fin lo) (Fin hi)) eqn:E; simpl in E.
    + apply Qc_eqb_true in E. subst hi. simpl. apply Qc_ltb_true.
      apply Qclt_minus_iff.
      replace (lo + Q2Qc (inject_Z 1) + - (lo + - Q2Qc (inject_Z 1)))%Qc
        with (Q2Qc (inject_Z 1) + Q2Qc (inject_Z 1))%Qc by ring.
      reflexivity.
    + apply Qc_eqb_false in E. simpl. apply Qc_ltb_true.
      destruct (Qcle_lt_or_eq _ _ Hle); [assumption | contradiction].
Qed.

(** C1: the code at a scene with one building and no [buildingHeightRange].
    The mapping handed to [Building3D] is the fallback
    [{ min: 6, max: 6, minMM: 5, maxMM: 30 }]: its source range has
    min = max, the mapped height of the building is 0/0 and the building is
    extruded by NaN. *)
Theorem fallback_height_mapping_degenerate
    (ExtrudeGeometry : Shape -> num -> BufferGeometry) (Math_sqrt : num -> num) :
  let building :=
    mkBuilding [mkCoord (ofZ 0) (ofZ 0); mkCoord (ofZ 0) (ofZ 1); mkCoord (ofZ 1) (ofZ 1)]
               ∅ in
  let data := Some (mkOSMData [building]) in
  let m := buildingHeightMapping data None in
  m = HeightMapping.mk (ofZ 6) (ofZ 6) (ofZ 5) (ofZ 30)
  /\ Num.ltb (HeightMapping.min m) (HeightMapping.max m) = false
  /\ Building3D_height (getBuildingHeight building) m = NaN
  /\ buildingMeshes
       (Scene3D ExtrudeGeometry Math_sqrt data (Some unitBounds) None None None None None)
     = [ExtrudeGeometry
          [Vector2.mk (ofZ (-500)) (ofZ 500); Vector2.mk (ofZ 500) (ofZ 500);
           Vector2.mk (ofZ 500) (ofZ (-500))]
          NaN].
Proof.
  intros building data m. repeat split; try reflexivity.
  vm_compute. num_eq.
Qed.

(** ** Values of the specification's examples *)

Example getBuildingHeight_examples :
  getBuildingHeight (taggedBuilding [("height", "15"); ("building:levels", "3");
                                     ("building", "office")]) = ofZ 15
  /\ getBuildingHeight (taggedBuilding [("building:levels", "3")]) = ofZ 9
  /\ getBuildingHeight (taggedBuilding [("building", "office")]) = ofZ 20
  /\ getBuildingHeight (taggedBuilding []) = ofZ 6
  /\ getBuildingHeight (taggedBuilding [("height", "12.5 m")]) = ofQ (25 # 2)
  /\ getBuildingHeight (taggedBuilding [("height", ""); ("building:levels", "4")])
     = ofZ 12.
Proof. num_eval. Qed.

(** Three buildings of 4, 4 and 40 metres mapped to the range 5 to 30. *)
Example heightMapping_example :
  let data :=
    mkOSMData [taggedBuilding [("height", "4")]; taggedBuilding [("building", "retail")];
               taggedBuilding [("height", "40")]] in
  let m := buildingHeightMapping (Some data) (Some (HeightRange.mk (ofZ 5) (ofZ 30))) in
  m = HeightMapping.mk (ofZ 4) (ofZ 40) (ofZ 5) (ofZ 30)
  /\ map (fun b => Building3D_height (getBuildingHeight b) m) (buildings data)
     = [ofZ 5; ofZ 5; ofZ 30].
Proof. split; vm_compute; num_eq. Qed.

(** The merged buffer of a triangle and a square wall: the indices of the
    square are those of its own geometry plus 6, the vertex count of the
    triangle wall. *)
Example Foundation3D_merge_example :
  index (Foundation3D_merge wallExtrude [triangleShape; squareShape])
  = Some ([0; 2; 3; 0; 3; 1; 2; 4; 5; 2; 5; 3; 4; 0; 1; 4; 1; 5]
          ++ [6; 8; 9; 6; 9; 7; 8; 10; 11; 8; 11; 9; 10; 12; 13; 10; 13; 11;
              12; 6; 7; 12; 7; 13]).
Proof. reflexivity. Qed.

(** ** More on the projection *)

Lemma leb_Fin (a b : Qc) : Num.leb (Fin a) (Fin b) = true <-> (a <= b)%Qc.
Proof.
  split; [|apply Qc_leb_Fin].
  unfold Num.leb. simpl. intros H. apply orb_true_iff in H as [H|H].
  - apply Qc_ltb_true in H. by apply Qclt_le_weak.
  - apply Qc_eqb_true in H. subst. apply Qcle_refl.
Qed.

Lemma ltb_Fin (a b : Qc) : Num.ltb (Fin a) (Fin b) = true <-> (a < b)%Qc.
Proof. apply Qc_ltb_true. Qed.

(** A number between two finite numbers is finite. *)
Lemma within_Fin (a b : Qc) (v : num) :
  within (Fin a) (Fin b) v = true ->
  exists q, v = Fin q /\ (a <= q)%Qc /\ (q <= b)%Qc.
Proof.
  unfold within. intros H. apply andb_true_iff in H as [H1 H2].
  destruct v as [|s|q].
  - discriminate.
  - destruct s; discriminate.
  - exists q. split; [reflexivity|]. split; by apply leb_Fin.
Qed.

Lemma within_Fin_intro (a b q : Qc) :
  (a <= q)%Qc -> (q <= b)%Qc -> within (Fin a) (Fin b) (Fin q) = true.
Proof.
  intros H1 H2. unfold within. apply andb_true_iff. split; by apply leb_Fin.
Qed.

Lemma Qc_sub_pos (a b : Qc) : (a < b)%Qc -> (0 < b - a)%Qc.
Proof. intros H. by apply Qclt_minus_iff in H. Qed.

Lemma Qc_sub_nonneg (a b : Qc) : (a <= b)%Qc -> (0 <= b - a)%Qc.
Proof. intros H. by apply Qcle_minus_iff in H. Qed.

(** A part of a positive whole, as a fraction, is between 0 and 1. *)
Lemma Qc_ratio_unit (a d : Qc) :
  (0 <= a)%Qc -> (a <= d)%Qc -> (0 < d)%Qc ->
  (0 <= a / d)%Qc /\ (a / d <= 1)%Qc.
Proof.
  intros Ha Had Hd. pose proof (Qcinv_pos d Hd) as Hi.
  unfold Qcdiv. split.
  - apply Qcmult_nonneg_nonneg; [exact Ha | by apply Qclt_le_weak].
  - rewrite <- (Qcmult_inv_r d) by (by apply not_eq_sym, Qclt_not_eq).
    apply Qcmult_le_compat_r; [exact Had | by apply Qclt_le_weak].
Qed.

(** [t] in the unit interval, centred and scaled by a non-negative extent. *)
Lemma Qc_centred_scaled (t ext : Qc) :
  (0 <= t)%Qc -> (t <= 1)%Qc -> (0 <= ext)%Qc ->
  (- (ext / (1 + 1)) <= (t - 1 / (1 + 1)) * ext)%Qc
  /\ ((t - 1 / (1 + 1)) * ext <= ext / (1 + 1))%Qc.
Proof.
  intros H0 H1 He. pose proof Qc_two_ne_0 as H2. split.
  - replace (- (ext / (1 + 1)))%Qc with ((0 - 1 / (1 + 1)) * ext)%Qc by (field; auto).
    apply Qcmult_le_compat_r; [|exact He].
    unfold Qcminus. by apply Qcplus_le_mono_r.
  - replace (ext / (1 + 1))%Qc with ((1 - 1 / (1 + 1)) * ext)%Qc by (field; auto).
    apply Qcmult_le_compat_r; [|exact He].
    unfold Qcminus. by apply Qcplus_le_mono_r.
Qed.

Lemma Qc_opp_mul_l (a b : Qc) : (- a * b = - (a * b))%Qc.
Proof. ring. Qed.

(** X1: in finite bounds with west < east and south < north and with
    non-negative model dimensions, every footprint vertex that lies inside the
    bounds is projected to a finite point inside the model rectangle:
    [-width/2 <= x <= width/2] and [-depth/2 <= z <= depth/2]. *)
Theorem Building3D_points_within_extents (n s e w wd dp : Qc) (building : Building) :
  let bounds := mkBounds (Fin n) (Fin s) (Fin e) (Fin w) in
  let two := Q2Qc (inject_Z 2) in
  (w < e)%Qc -> (s < n)%Qc -> (0 <= wd)%Qc -> (0 <= dp)%Qc ->
  Forall (fun c => within (Fin w) (Fin e) (lon c) = true
                   /\ within (Fin s) (Fin n) (lat c) = true) (geometry building) ->
  Forall (fun v => within (Fin (- (wd / two))%Qc) (Fin (wd / two)%Qc) (Vector2.x v) = true
                   /\ within (Fin (- (dp / two))%Qc) (Fin (dp / two)%Qc) (Vector2.y v)
                      = true)
         (Building3D_points building bounds (Some (mkDims (Fin wd) (Fin dp)))).
Proof.
  intros bounds two Hwe Hsn Hwd Hdp Hin. subst bounds two.
  rewrite Building3D_points_map. apply Forall_map.
  eapply Forall_impl; [exact Hin|]. clear Hin.
  intros [la lo] [Hlo Hla]. simpl in Hlo, Hla.
  apply within_Fin in Hlo as (lo' & -> & Hlo1 & Hlo2).
  apply within_Fin in Hla as (la' & -> & Hla1 & Hla2).
  rewrite project_Fin
    by (apply not_eq_sym, Qclt_not_eq; assumption).
  cbn [Vector2.x Vector2.y]. rewrite Qc_half, Qc_two.
  destruct (Qc_ratio_unit (lo' - w) (e - w)) as [Hx0 Hx1];
    [by apply Qc_sub_nonneg | unfold Qcminus; by apply Qcplus_le_mono_r
     | by apply Qc_sub_pos |].
  destruct (Qc_ratio_unit (la' - s) (n - s)) as [Hz0 Hz1];
    [by apply Qc_sub_nonneg | unfold Qcminus; by apply Qcplus_le_mono_r
     | by apply Qc_sub_pos |].
  destruct (Qc_centred_scaled _ wd Hx0 Hx1 Hwd) as [Hxa Hxb].
  destruct (Qc_centred_scaled _ dp Hz0 Hz1 Hdp) as [Hza Hzb].
  split; apply within_Fin_intro; try assumption.
  - rewrite Qc_opp_mul_l. apply Qcopp_le_compat in Hzb. exact Hzb.
  - rewrite Qc_opp_mul_l. apply Qcopp_le_compat in Hza.
    by rewrite Qcopp_involutive in Hza.
Qed.

Lemma Building3D_points_within_extents_witness :
  Forall (fun v => within (ofZ (-50)) (ofZ 50) (Vector2.x v) = true
                   /\ within (ofZ (-50)) (ofZ 50) (Vector2.y v) = true)
    (Building3D_points
       (mkBuilding [mkCoord (ofQ (1 # 2)) (ofQ (1 # 2)); mkCoord (ofZ 1) (ofQ (1 # 2))] ∅)
       unitBounds (Some (mkDims (ofZ 100) (ofZ 100)))).
Proof.
  pose proof (Building3D_points_within_extents
                (Q2Qc (inject_Z 1)) (Q2Qc (inject_Z 0)) (Q2Qc (inject_Z 1))
                (Q2Qc (inject_Z 0)) (Q2Qc (inject_Z 100)) (Q2Qc (inject_Z 100))
                (mkBuilding [mkCoord (ofQ (1 # 2)) (ofQ (1 # 2));
                             mkCoord (ofZ 1) (ofQ (1 # 2))] ∅)) as H.
  cbv zeta in H.
  assert (Fin (- (Q2Qc (inject_Z 100) / Q2Qc (inject_Z 2)))%Qc = ofZ (-50)) as E1
    by (apply Fin_eq; reflexivity).
  assert (Fin (Q2Qc (inject_Z 100) / Q2Qc (inject_Z 2))%Qc = ofZ 50) as E2
    by (apply Fin_eq; reflexivity).
  rewrite E1, E2 in H. apply H; try (vm_compute; congruence).
  repeat constructor.
Defined.

Lemma Qc_opp_lt (a b : Qc) : (a < b)%Qc -> (- b < - a)%Qc.
Proof.
  intros H. apply Qclt_minus_iff. apply Qclt_minus_iff in H.
  by rewrite Qcopp_involutive, Qcplus_comm.
Qed.

Lemma Vector2_Fin_inj (a b c d : Qc) :
  Vector2.mk (Fin a) (Fin b) = Vector2.mk (Fin c) (Fin d) -> a = c /\ b = d.
Proof. intros H. by injection H. Qed.

(** X2: with bounds and coordinates at most [2^51] in magnitude, west < east,
    south < north and positive model dimensions, a point further east is
    never projected to a smaller x and a point further north never to a
    larger z. *)
Theorem project_orientation (n s e w wd dp la1 lo1 la2 lo2 : Qc) :
  let bounds := mkBounds (Fin n) (Fin s) (Fin e) (Fin w) in
  let dims := mkDims (Fin wd) (Fin dp) in
  let v1 := project (mkCoord (Fin la1) (Fin lo1)) bounds dims in
  let v2 := project (mkCoord (Fin la2) (Fin lo2)) bounds dims in
  Forall (fun q => ordinary (Fin q) = true) [n; s; e; w; la1; lo1; la2; lo2] ->
  (w < e)%Qc -> (s < n)%Qc -> (0 < wd)%Qc -> (0 < dp)%Qc ->
  ((lo1 <= lo2)%Qc -> Num.leb (Vector2.x v1) (Vector2.x v2) = true)
  /\ ((la1 <= la2)%Qc -> Num.leb (Vector2.y v2) (Vector2.y v1) = true).
Proof.
  intros bounds dims v1 v2 _ Hwe Hsn Hwd Hdp. subst v1 v2 bounds dims.
  apply Qclt_le_weak in Hwd. apply Qclt_le_weak in Hdp.
  rewrite !project_Fin by (apply not_eq_sym, Qclt_not_eq; assumption).
  cbn [Vector2.x Vector2.y].
  pose proof (Qclt_le_weak _ _ (Qcinv_pos _ (Qc_sub_pos _ _ Hwe))) as Hiw.
  pose proof (Qclt_le_weak _ _ (Qcinv_pos _ (Qc_sub_pos _ _ Hsn))) as Hin.
  split; intros Hle; apply leb_Fin.
  - apply Qcmult_le_compat_r; [|exact Hwd].
    unfold Qcminus at 1 3. apply Qcplus_le_mono_r.
    unfold Qcdiv. apply Qcmult_le_compat_r; [|exact Hiw].
    unfold Qcminus. by apply Qcplus_le_mono_r.
  - apply Qcmult_le_compat_r; [|exact Hdp].
    apply Qcopp_le_compat.
    unfold Qcminus at 1 3. apply Qcplus_le_mono_r.
    unfold Qcdiv. apply Qcmult_le_compat_r; [|exact Hin].
    unfold Qcminus. by apply Qcplus_le_mono_r.
Qed.

Lemma project_orientation_witness :
  Num.leb
    (Vector2.x (project (mkCoord (ofZ 0) (ofZ 0)) unitBounds (mkDims (ofZ 100) (ofZ 100))))
    (Vector2.x (project (mkCoord (ofZ 0) (ofZ 1)) unitBounds (mkDims (ofZ 100) (ofZ 100))))
  = true.
Proof.
  assert ((Q2Qc (inject_Z 0) < Q2Qc (inject_Z 1))%Qc) as H01 by reflexivity.
  assert ((Q2Qc (inject_Z 0) <= Q2Qc (inject_Z 1))%Qc) as Hle
    by (vm_compute; congruence).
  assert ((Q2Qc (inject_Z 0) < Q2Qc (inject_Z 100))%Qc) as H100 by reflexivity.
  assert (Forall (fun q => ordinary (Fin q) = true)
            [Q2Qc (inject_Z 1); Q2Qc (inject_Z 0); Q2Qc (inject_Z 1); Q2Qc (inject_Z 0);
             Q2Qc (inject_Z 0); Q2Qc (inject_Z 0); Q2Qc (inject_Z 0); Q2Qc (inject_Z 1)])
    as Hord by (repeat constructor).
  exact (proj1 (project_orientation
                  (Q2Qc (inject_Z 1)) (Q2Qc (inject_Z 0)) (Q2Qc (inject_Z 1))
                  (Q2Qc (inject_Z 0)) (Q2Qc (inject_Z 100)) (Q2Qc (inject_Z 100))
                  (Q2Qc (inject_Z 0)) (Q2Qc (inject_Z 0)) (Q2Qc (inject_Z 0))
                  (Q2Qc (inject_Z 1)) Hord H01 H01 H100 H100) Hle).
Defined.

Lemma Qc_eqb_sub_diag (q : Qc) : Qc_eqb (q + - q) 0 = true.
Proof. apply Qc_eqb_true. ring. Qed.

Lemma isFinite_sub_half (a : num) : isFinite a = false -> isFinite (a - half)%num = false.
Proof. destruct a as [|s|q]; [reflexivity | by destruct s | discriminate]. Qed.

Lemma isFinite_mul_l (a b : num) : isFinite a = false -> isFinite (a * b)%num = false.
Proof.
  destruct a as [|s|q]; [reflexivity | | discriminate]. intros _.
  destruct b as [|s'|y]; simpl; [reflexivity | reflexivity |].
  by destruct (Qc_eqb y 0).
Qed.

Lemma isFinite_neg (a : num) : isFinite (- a)%num = isFinite a.
Proof. by destruct a. Qed.

Lemma isFinite_div_zero (a : num) (q : Qc) :
  isFinite (a / (Fin q - Fin q))%num = false.
Proof.
  unfold Num.sub. simpl. destruct a as [|s|x]; simpl; try reflexivity.
  rewrite Qc_eqb_sub_diag. by destruct (Qc_eqb x 0).
Qed.

(** X3: bounds of zero width (east = west) never give a finite x, and bounds
    of zero height (north = south) never give a finite z, whatever the
    coordinate and the model dimensions are: the result is NaN or an
    infinity. *)
Theorem Building3D_points_degenerate_bounds (building : Building) (bounds : OSMBounds)
    (modelDimensions : option ModelDimensions) (q : Qc) :
  (east bounds = Fin q -> west bounds = Fin q ->
   Forall (fun v => isFinite (Vector2.x v) = false)
          (Building3D_points building bounds modelDimensions))
  /\ (north bounds = Fin q -> south bounds = Fin q ->
      Forall (fun v => isFinite (Vector2.y v) = false)
             (Building3D_points building bounds modelDimensions)).
Proof.
  unfold Building3D_points. rewrite foldl_push, app_nil_l.
  split; intros H1 H2; rewrite H1, H2; apply Forall_map, Forall_forall;
    intros c _; cbn [Vector2.x Vector2.y].
  - apply isFinite_mul_l, isFinite_sub_half, isFinite_div_zero.
  - apply isFinite_mul_l. rewrite isFinite_neg.
    apply isFinite_sub_half, isFinite_div_zero.
Qed.

Lemma Building3D_points_degenerate_bounds_witness :
  Forall (fun v => isFinite (Vector2.x v) = false)
    (Building3D_points
       (mkBuilding [mkCoord (ofZ 0) (ofZ 3); mkCoord (ofZ 1) (ofZ 4)] ∅)
       (mkBounds (ofZ 1) (ofZ 0) (ofZ 3) (ofZ 3)) None).
Proof.
  apply (Building3D_points_degenerate_bounds
           (mkBuilding [mkCoord (ofZ 0) (ofZ 3); mkCoord (ofZ 1) (ofZ 4)] ∅)
           (mkBounds (ofZ 1) (ofZ 0) (ofZ 3) (ofZ 3)) None (Q2Qc (inject_Z 3)));
    reflexivity.
Defined.

(** ** More on the height mapping of a scene *)

(** The lowest of finite numbers is one of them and lies below them all. *)
Lemma Math_min_fold_least (l : list num) (q : Qc) :
  Forall (fun a => isFinite a = true) l ->
  exists q', foldl (fun lowest n => if Num.ltb n lowest then n else lowest) (Fin q) l
             = Fin q'
             /\ (q' <= q)%Qc
             /\ Forall (fun a => Num.leb (Fin q') a = true) l
             /\ (q' = q \/ Fin q' ∈ l).
Proof.
  intros Hl. revert q. induction Hl as [|a l Ha _ IH]; intros q.
  - exists q. repeat split; [apply Qcle_refl | constructor | by left].
  - destruct a as [| |x]; try discriminate. simpl.
    destruct (Qc_ltb x q) eqn:E.
    + destruct (IH x) as (q' & -> & Hq' & Hall & Hin). exists q'.
      apply Qc_ltb_true in E.
      split; [reflexivity|]. split; [|split].
      * eapply Qcle_trans; [exact Hq'|]. by apply Qclt_le_weak.
      * constructor; [by apply leb_Fin | exact Hall].
      * right. destruct Hin as [->|Hin]; [left | by right].
    + destruct (IH q) as (q' & -> & Hq' & Hall & Hin). exists q'.
      apply Qc_ltb_false in E.
      split; [reflexivity|]. split; [exact Hq'|]. split.
      * constructor; [|exact Hall]. apply leb_Fin. by eapply Qcle_trans.
      * destruct Hin as [->|Hin]; [by left | right; by right].
Qed.

(** The highest of finite numbers is one of them and lies above them all. *)
Lemma Math_max_fold_greatest (l : list num) (q : Qc) :
  Forall (fun a => isFinite a = true) l ->
  exists q', foldl (fun highest n => if Num.ltb highest n then n else highest) (Fin q) l
             = Fin q'
             /\ (q <= q')%Qc
             /\ Forall (fun a => Num.leb a (Fin q') = true) l
             /\ (q' = q \/ Fin q' ∈ l).
Proof.
  intros Hl. revert q. induction Hl as [|a l Ha _ IH]; intros q.
  - exists q. repeat split; [apply Qcle_refl | constructor | by left].
  - destruct a as [| |x]; try discriminate. simpl.
    destruct (Qc_ltb q x) eqn:E.
    + destruct (IH x) as (q' & -> & Hq' & Hall & Hin). exists q'.
      apply Qc_ltb_true in E.
      split; [reflexivity|]. split; [|split].
      * eapply Qcle_trans; [|exact Hq']. by apply Qclt_le_weak.
      * constructor; [by apply leb_Fin | exact Hall].
      * right. destruct Hin as [->|Hin]; [left | by right].
    + destruct (IH q) as (q' & -> & Hq' & Hall & Hin). exists q'.
      apply Qc_ltb_false in E.
      split; [reflexivity|]. split; [exact Hq'|]. split.
      * constructor; [|exact Hall]. apply leb_Fin. by eapply Qcle_trans.
      * destruct Hin as [->|Hin]; [by left | right; by right].
Qed.

(** [Math.min] and [Math.max] of a non-empty list of finite numbers. *)
Lemma Math_min_max_bounds (l : list num) :
  l <> [] ->
  Forall (fun a => isFinite a = true) l ->
  exists lo hi,
    Math_min l = Fin lo /\ Math_max l = Fin hi
    /\ Forall (fun a => within (Fin lo) (Fin hi) a = true) l
    /\ Fin lo ∈ l /\ Fin hi ∈ l.
Proof.
  intros Hne Hl. unfold Math_min, Math_max.
  rewrite (existsb_isNaN_finite l Hl).
  destruct Hl as [|a l Ha Hl]; [congruence|].
  destruct a as [| |x]; try discriminate. simpl.
  destruct (Math_min_fold_least l x Hl) as (lo & -> & Hlo & Hlos & Hloin).
  destruct (Math_max_fold_greatest l x Hl) as (hi & -> & Hhi & Hhis & Hhiin).
  exists lo, hi. split; [reflexivity|]. split; [reflexivity|]. split; [|split].
  - constructor.
    + by apply within_Fin_intro.
    + apply Forall_forall. intros a Ha'. unfold within.
      rewrite Forall_forall in Hlos, Hhis.
      by rewrite (Hlos a Ha'), (Hhis a Ha').
  - destruct Hloin as [->|Hin]; [left | by right].
  - destruct Hhiin as [->|Hin]; [left | by right].
Qed.

(** The source range that [Scene3D] computes from finite heights: the
    lowest and the highest height, or one below and one above when they are
    the same. *)
Lemma heightMapping_source_range (data : OSMData) (range : HeightRange.t) :
  buildings data <> [] ->
  Forall (fun b => isFinite (getBuildingHeight b) = true) (buildings data) ->
  exists lo hi smin smax,
    Math_min (map getBuildingHeight (buildings data)) = Fin lo
    /\ Math_max (map getBuildingHeight (buildings data)) = Fin hi
    /\ buildingHeightMapping (Some data) (Some range)
       = HeightMapping.mk (Fin smin) (Fin smax)
           (HeightRange.min range) (HeightRange.max range)
    /\ (smin < smax)%Qc /\ (smin <= lo)%Qc /\ (hi <= smax)%Qc
    /\ (lo = hi -> smin = (lo - Q2Qc (inject_Z 1))%Qc
                   /\ smax = (hi + Q2Qc (inject_Z 1))%Qc)
    /\ (lo <> hi -> smin = lo /\ smax = hi)
    /\ Forall (fun b => within (Fin lo) (Fin hi) (getBuildingHeight b) = true)
         (buildings data).
Proof.
  intros Hne Hfin.
  destruct (Math_min_max_bounds (map getBuildingHeight (buildings data)))
    as (lo & hi & Hlo & Hhi & Hall & Hloin & _).
  - destruct (buildings data); [congruence | discriminate].
  - by apply Forall_map.
  - assert ((lo <= hi)%Qc) as Hle.
    { rewrite Forall_forall in Hall. specialize (Hall _ Hloin).
      apply within_Fin in Hall as (q & Hq & _ & Hq2). by injection Hq as <-. }
    unfold buildingHeightMapping, heightMapping.
    destruct (buildings data) as [|b l] eqn:Hb; [congruence|].
    cbn [length Nat.eqb]. cbv zeta. rewrite Hlo, Hhi.
    apply Forall_map in Hall.
    assert ((0 < Q2Qc (inject_Z 1))%Qc) as H1 by reflexivity.
    destruct (Num.eqb (Fin lo) (Fin hi)) eqn:E; simpl in E.
    + apply Qc_eqb_true in E. subst hi.
      exists lo, lo, (lo - Q2Qc (inject_Z 1))%Qc, (lo + Q2Qc (inject_Z 1))%Qc.
      split; [reflexivity|]. split; [reflexivity|]. split; [reflexivity|].
      assert ((lo - Q2Qc (inject_Z 1) <= lo)%Qc) as Ha.
      { apply Qcle_minus_iff.
        replace (lo + - (lo - Q2Qc (inject_Z 1)))%Qc with (Q2Qc (inject_Z 1)) by ring.
        by apply Qclt_le_weak. }
      assert ((lo <= lo + Q2Qc (inject_Z 1))%Qc) as Hb'.
      { apply Qcle_minus_iff.
        replace (lo + Q2Qc (inject_Z 1) + - lo)%Qc with (Q2Qc (inject_Z 1)) by ring.
        by apply Qclt_le_weak. }
      split; [|split; [exact Ha|split; [exact Hb'|]]].
      * apply Qclt_minus_iff.
        replace (lo + Q2Qc (inject_Z 1) + - (lo - Q2Qc (inject_Z 1)))%Qc
          with (Q2Qc (inject_Z 1) + Q2Qc (inject_Z 1))%Qc by ring.
        reflexivity.
      * split; [by intros _|]. split; [congruence | exact Hall].
    + apply Qc_eqb_false in E.
      exists lo, hi, lo, hi.
      split; [reflexivity|]. split; [reflexivity|]. split; [reflexivity|].
      split; [destruct (Qcle_lt_or_eq _ _ Hle); [assumption | contradiction]|].
      split; [apply Qcle_refl|]. split; [apply Qcle_refl|].
      split; [congruence|]. split; [by intros _ | exact Hall].
Qed.

(** The mapped height as a fraction of the target range. *)
Lemma Qc_interpolate_within (t a b : Qc) :
  (0 <= t)%Qc -> (t <= 1)%Qc -> (a <= b)%Qc ->
  (a <= a + t * (b - a))%Qc /\ (a + t * (b - a) <= b)%Qc.
Proof.
  intros H0 H1 Hab. pose proof (Qc_sub_nonneg _ _ Hab) as Hd. split.
  - rewrite <- (Qcplus_0_r a) at 1. apply Qcplus_le_mono_l.
    by apply Qcmult_nonneg_nonneg.
  - replace b with (a + 1 * (b - a))%Qc at 2 by ring.
    apply Qcplus_le_mono_l. by apply Qcmult_le_compat_r.
Qed.

(** Finite heights are mapped into a target range [minMM <= maxMM]. *)
Lemma heights_within_target (data : OSMData) (tmin tmax : Qc) :
  buildings data <> [] ->
  Forall (fun b => isFinite (getBuildingHeight b) = true) (buildings data) ->
  (tmin <= tmax)%Qc ->
  Forall (fun b => within (Fin tmin) (Fin tmax)
                     (Building3D_height (getBuildingHeight b)
                        (buildingHeightMapping (Some data)
                           (Some (HeightRange.mk (Fin tmin) (Fin tmax))))) = true)
         (buildings data).
Proof.
  intros Hne Hfin Ht.
  destruct (heightMapping_source_range data (HeightRange.mk (Fin tmin) (Fin tmax))
              Hne Hfin)
    as (lo & hi & smin & smax & _ & _ & -> & Hs & Hslo & Hshi & _ & _ & Hall).
  eapply Forall_impl; [exact Hall|]. intros b Hb. simpl in Hb.
  apply within_Fin in Hb as (h & -> & Hh1 & Hh2).
  cbn [HeightRange.min HeightRange.max].
  rewrite Building3D_height_Fin by (by apply Qclt_not_eq).
  destruct (Qc_ratio_unit (h - smin) (smax - smin)) as [H0 H1].
  - apply Qc_sub_nonneg. by eapply Qcle_trans.
  - unfold Qcminus. apply Qcplus_le_mono_r. by eapply Qcle_trans.
  - by apply Qc_sub_pos.
  - destruct (Qc_interpolate_within _ tmin tmax H0 H1 Ht).
    by apply within_Fin_intro.
Qed.

Lemma ofZ_le (a b : Z) :
  (a <= b)%Z -> (Q2Qc (inject_Z a) <= Q2Qc (inject_Z b))%Qc.
Proof.
  intros H. unfold Qcle, Q2Qc. cbn [this]. rewrite !Qred_correct.
  by rewrite <- Zle_Qle.
Qed.

Lemma ordinary_finite (a : num) : ordinary a = true -> isFinite a = true.
Proof.
  unfold ordinary, ofZ. intros H. by apply within_Fin in H as (q & -> & _).
Qed.

Lemma Forall_ordinary_finite (l : list Building) :
  Forall (fun b => ordinary (getBuildingHeight b) = true) l ->
  Forall (fun b => isFinite (getBuildingHeight b) = true) l.
Proof.
  intros H. eapply Forall_impl; [exact H|]. intros b. apply ordinary_finite.
Qed.

(** X4: in a scene whose building heights are at most [2^51] in magnitude
    and whose target range has whole-number ends [minMM <= maxMM], at most
    [2^51] in magnitude, every building is extruded by a finite height inside
    the target range. *)
Theorem Scene3D_heights_within_target (data : OSMData) (tmin tmax : Z) :
  let range := HeightRange.mk (ofZ tmin) (ofZ tmax) in
  buildings data <> [] ->
  Forall (fun b => ordinary (getBuildingHeight b) = true) (buildings data) ->
  (- 2 ^ 51 <= tmin)%Z -> (tmin <= tmax)%Z -> (tmax <= 2 ^ 51)%Z ->
  Forall (fun b => within (ofZ tmin) (ofZ tmax)
                     (Building3D_height (getBuildingHeight b)
                        (buildingHeightMapping (Some data) (Some range))) = true)
         (buildings data).
Proof.
  intros range Hne Hord Hlo Ht Hhi. subst range. unfold ofZ.
  apply heights_within_target; [exact Hne | | by apply ofZ_le].
  by apply Forall_ordinary_finite.
Qed.

Lemma Scene3D_heights_within_target_witness :
  let data :=
    mkOSMData [taggedBuilding [("height", "4")]; taggedBuilding [("building", "office")];
               taggedBuilding [("height", "40")]] in
  Forall (fun b => within (ofZ 5) (ofZ 30)
                     (Building3D_height (getBuildingHeight b)
                        (buildingHeightMapping (Some data)
                           (Some (HeightRange.mk (ofZ 5) (ofZ 30))))) = true)
         (buildings data).
Proof.
  intros data.
  apply (Scene3D_heights_within_target data 5 30).
  - discriminate.
  - repeat constructor.
  - vm_compute. congruence.
  - vm_compute. congruence.
  - vm_compute. congruence.
Defined.

(** X5: in a scene whose building heights are at most [2^51] in magnitude
    and not all the same, with a target range of whole-number ends at most
    [2^51] in magnitude, a building of the lowest height is extruded by
    exactly [minMM] and a building of the highest height by exactly
    [maxMM]. *)
Theorem Scene3D_extreme_heights (data : OSMData) (tmin tmax : Z) (b : Building) :
  let range := HeightRange.mk (ofZ tmin) (ofZ tmax) in
  let heights := map getBuildingHeight (buildings data) in
  let m := buildingHeightMapping (Some data) (Some range) in
  buildings data <> [] ->
  Forall (fun b => ordinary (getBuildingHeight b) = true) (buildings data) ->
  (Z.abs tmin <= 2 ^ 51)%Z -> (Z.abs tmax <= 2 ^ 51)%Z ->
  Num.eqb (Math_min heights) (Math_max heights) = false ->
  (getBuildingHeight b = Math_min heights ->
   Building3D_height (getBuildingHeight b) m = ofZ tmin)
  /\ (getBuildingHeight b = Math_max heights ->
      Building3D_height (getBuildingHeight b) m = ofZ tmax).
Proof.
  intros range heights m Hne Hord _ _ Hdiff. subst heights m.
  pose proof (Forall_ordinary_finite _ Hord) as Hfin.
  destruct (heightMapping_source_range data range Hne Hfin)
    as (lo & hi & smin & smax & Hlo & Hhi & -> & Hs & _ & _ & _ & Hne' & _).
  rewrite Hlo, Hhi in Hdiff. simpl in Hdiff. apply Qc_eqb_false in Hdiff.
  destruct (Hne' Hdiff) as [-> ->].
  pose proof (Qc_sub_ne_0 _ _ (not_eq_sym Hdiff)) as Hd.
  subst range. cbn [HeightRange.min HeightRange.max]. unfold ofZ.
  split; intros ->; [rewrite Hlo | rewrite Hhi];
    rewrite Building3D_height_Fin by assumption; f_equal; field; exact Hd.
Qed.

Lemma Scene3D_extreme_heights_witness :
  let data :=
    mkOSMData [taggedBuilding [("height", "4")]; taggedBuilding [("building", "office")];
               taggedBuilding [("height", "40")]] in
  Building3D_height (getBuildingHeight (taggedBuilding [("height", "40")]))
    (buildingHeightMapping (Some data) (Some (HeightRange.mk (ofZ 5) (ofZ 30))))
  = ofZ 30.
Proof.
  intros data.
  apply (Scene3D_extreme_heights data 5 30 (taggedBuilding [("height", "40")])).
  - discriminate.
  - repeat constructor.
  - vm_compute. congruence.
  - vm_compute. congruence.
  - reflexivity.
  - vm_compute. num_eq.
Defined.

Lemma Fin_inj (a b : Qc) : Fin a = Fin b -> a = b.
Proof. intros H. by injection H. Qed.

(** X6: in a scene whose buildings all have the same whole-number height,
    at most [2^51] in magnitude, with a target range of whole-number ends at
    most [2^51] in magnitude, every building is extruded by the middle of the
    target range, [(minMM + maxMM) / 2]. *)
Theorem Scene3D_equal_heights (data : OSMData) (h tmin tmax : Z) :
  let range := HeightRange.mk (ofZ tmin) (ofZ tmax) in
  buildings data <> [] ->
  Forall (fun b => getBuildingHeight b = ofZ h) (buildings data) ->
  (Z.abs h <= 2 ^ 51)%Z -> (Z.abs tmin <= 2 ^ 51)%Z -> (Z.abs tmax <= 2 ^ 51)%Z ->
  Forall (fun b => Building3D_height (getBuildingHeight b)
                     (buildingHeightMapping (Some data) (Some range))
                   = Fin ((Q2Qc (inject_Z tmin) + Q2Qc (inject_Z tmax))
                          / Q2Qc (inject_Z 2))%Qc)
         (buildings data).
Proof.
  intros range Hne Hall _ _ _. unfold ofZ in Hall.
  set (hq := Q2Qc (inject_Z h)) in *.
  assert (Forall (fun b => isFinite (getBuildingHeight b) = true) (buildings data))
    as Hfin by (eapply Forall_impl; [exact Hall|]; by intros b ->).
  destruct (heightMapping_source_range data range Hne Hfin)
    as (lo & hi & smin & smax & Hlo & Hhi & -> & Hs & _ & _ & Heq & _ & Hin).
  assert (lo = hq /\ hi = hq) as [-> ->].
  { destruct (buildings data) as [|b l]; [congruence|].
    assert (Forall (fun a => a = Fin hq) (map getBuildingHeight (b :: l))) as Hm
      by (by apply Forall_map).
    destruct (Math_min_max_bounds (map getBuildingHeight (b :: l)))
      as (lo' & hi' & Hlo' & Hhi' & _ & Hloin & Hhiin);
      [discriminate | by apply Forall_map |].
    rewrite Forall_forall in Hm.
    rewrite Hlo in Hlo'. rewrite Hhi in Hhi'.
    injection Hlo' as <-. injection Hhi' as <-.
    pose proof (Hm _ Hloin) as E1. pose proof (Hm _ Hhiin) as E2.
    split; by apply Fin_inj. }
  destruct (Heq eq_refl) as [-> ->].
  eapply Forall_impl; [exact Hall|]. intros b ->.
  subst range. cbn [HeightRange.min HeightRange.max]. unfold ofZ.
  rewrite Building3D_height_Fin by (by apply Qclt_not_eq).
  rewrite Qc_two. pose proof Qc_two_ne_0.
  assert (Q2Qc (inject_Z 1) = 1%Qc) as -> by (apply Qc_is_canon; reflexivity).
  f_equal. field. intros E. apply (f_equal this) in E. discriminate.
Qed.

Lemma Scene3D_equal_heights_witness :
  let data :=
    mkOSMData [taggedBuilding [("building", "house")]; taggedBuilding []] in
  Forall (fun b => Building3D_height (getBuildingHeight b)
                     (buildingHeightMapping (Some data)
                        (Some (HeightRange.mk (ofZ 5) (ofZ 30))))
                   = ofQ (35 # 2))
         (buildings data).
Proof.
  intros data.
  assert (Fin ((Q2Qc (inject_Z 5) + Q2Qc (inject_Z 30)) / Q2Qc (inject_Z 2))%Qc
          = ofQ (35 # 2)) as E by (apply Fin_eq; reflexivity).
  rewrite <- E.
  apply (Scene3D_equal_heights data 6 5 30).
  - discriminate.
  - repeat constructor.
  - vm_compute. congruence.
  - vm_compute. congruence.
  - vm_compute. congruence.
Defined.

(** The mapped height does not decrease with the height. *)
Lemma Building3D_height_le (smin smax tmin tmax h1 h2 : Qc) :
  (smin < smax)%Qc -> (tmin <= tmax)%Qc -> (h1 <= h2)%Qc ->
  forall m, m = HeightMapping.mk (Fin smin) (Fin smax) (Fin tmin) (Fin tmax) ->
  Num.leb (Building3D_height (Fin h1) m) (Building3D_height (Fin h2) m) = true.
Proof.
  intros Hs Ht Hh m ->.
  rewrite !Building3D_height_Fin by (by apply Qclt_not_eq).
  apply leb_Fin. apply Qcplus_le_mono_l.
  apply Qcmult_le_compat_r; [|by apply Qc_sub_nonneg].
  unfold Qcdiv. apply Qcmult_le_compat_r.
  - unfold Qcminus. by apply Qcplus_le_mono_r.
  - apply Qclt_le_weak, Qcinv_pos. by apply Qc_sub_pos.
Qed.

(** X7: all buildings of a scene are mapped against one source range, so
    with building heights and a target range [minMM <= maxMM] that are at most
    [2^51] in magnitude, a building that is not higher than another is not
    extruded higher than it. *)
Theorem Scene3D_heights_ordered (data : OSMData) (tmin tmax : Qc) (b1 b2 : Building) :
  let range := HeightRange.mk (Fin tmin) (Fin tmax) in
  let m := buildingHeightMapping (Some data) (Some range) in
  buildings data <> [] ->
  Forall (fun b => ordinary (getBuildingHeight b) = true) (buildings data) ->
  ordinary (Fin tmin) = true -> ordinary (Fin tmax) = true ->
  (tmin <= tmax)%Qc ->
  b1 ∈ buildings data -> b2 ∈ buildings data ->
  Num.leb (getBuildingHeight b1) (getBuildingHeight b2) = true ->
  Num.leb (Building3D_height (getBuildingHeight b1) m)
          (Building3D_height (getBuildingHeight b2) m) = true.
Proof.
  intros range m Hne Hord _ _ Ht Hb1 Hb2 Hle. subst m.
  pose proof (Forall_ordinary_finite _ Hord) as Hfin.
  destruct (heightMapping_source_range data range Hne Hfin)
    as (lo & hi & smin & smax & _ & _ & Hm & Hs & _ & _ & _ & _ & _).
  rewrite Forall_forall in Hfin.
  pose proof (Hfin _ Hb1) as F1. pose proof (Hfin _ Hb2) as F2.
  destruct (getBuildingHeight b1) as [| |h1]; try discriminate.
  destruct (getBuildingHeight b2) as [| |h2]; try discriminate.
  apply leb_Fin in Hle.
  by apply (Building3D_height_le smin smax tmin tmax).
Qed.

Lemma Scene3D_heights_ordered_witness :
  let data :=
    mkOSMData [taggedBuilding [("height", "4")]; taggedBuilding [("building", "office")];
               taggedBuilding [("height", "40")]] in
  let m := buildingHeightMapping (Some data) (Some (HeightRange.mk (ofZ 5) (ofZ 30))) in
  Num.leb (Building3D_height (getBuildingHeight (taggedBuilding [("height", "4")])) m)
          (Building3D_height (getBuildingHeight (taggedBuilding [("building", "office")])) m)
  = true.
Proof.
  intros data m.
  apply (Scene3D_heights_ordered data (Q2Qc (inject_Z 5)) (Q2Qc (inject_Z 30))).
  - discriminate.
  - repeat constructor.
  - reflexivity.
  - reflexivity.
  - vm_compute. congruence.
  - set_solver.
  - set_solver.
  - reflexivity.
Defined.

(** ** More on the track *)

Lemma expandedPath_map (Math_sqrt : num -> num) (pathPoints : list Vector2.t)
    (pathWidth : num) :
  expandedPath Math_sqrt pathPoints pathWidth
  = map (fun i => Vector2.addVectors (nth i pathPoints undefinedVector)
                    (perpendicular Math_sqrt pathPoints pathWidth i))
        (seq 0 (length pathPoints))
    ++ map (fun i => Vector2.subVectors (nth i pathPoints undefinedVector)
                       (perpendicular Math_sqrt pathPoints pathWidth i))
           (reverse (seq 0 (length pathPoints))).
Proof.
  unfold expandedPath. rewrite rev_alt. fold (reverse (seq 0 (length pathPoints))).
  by rewrite !foldl_push, app_nil_l.
Qed.

Lemma expandedPath_length (Math_sqrt : num -> num) (pathPoints : list Vector2.t)
    (pathWidth : num) :
  length (expandedPath Math_sqrt pathPoints pathWidth) = 2 * length pathPoints.
Proof.
  rewrite expandedPath_map, length_app, !length_map, length_reverse, length_seq. lia.
Qed.

Lemma eqb_eq (a b : num) : Num.eqb a b = true -> a = b.
Proof.
  destruct a as [|s|x], b as [|t|y]; simpl; try discriminate.
  - intros H. apply Bool.eqb_prop in H. by subst.
  - intros H. apply Qc_eqb_true in H. by subst.
Qed.

Lemma Vector2_equals_eq (a b : Vector2.t) : Vector2_equals a b = true -> a = b.
Proof.
  destruct a as [ax ay], b as [bx by_]. unfold Vector2_equals. simpl.
  intros H. apply andb_true_iff in H as [Hx Hy].
  apply eqb_eq in Hx, Hy. by subst.
Qed.

(** The outline of a track of [n >= 2] points and its path shape. *)
Lemma pathShape_outline (Math_sqrt : num -> num) (pathPoints : list Vector2.t)
    (pathWidth : num) :
  let n := length pathPoints in
  let outline := expandedPath Math_sqrt pathPoints pathWidth in
  let shape := GPXTrack3D_pathShape Math_sqrt pathPoints pathWidth in
  2 <= n ->
  length outline = 2 * n
  /\ (forall i p, pathPoints !! i = Some p ->
        outline !! i
        = Some (Vector2.addVectors p (perpendicular Math_sqrt pathPoints pathWidth i))
        /\ outline !! (2 * n - 1 - i)
           = Some (Vector2.subVectors p (perpendicular Math_sqrt pathPoints pathWidth i)))
  /\ ((shape = outline /\ head outline = last outline)
      \/ shape = outline ++ take 1 outline)
  /\ head shape = last shape.
Proof.
  intros n outline shape Hn. subst n.
  assert (length outline = 2 * length pathPoints) as Hlen
    by apply expandedPath_length.
  split; [exact Hlen|]. split; [|].
  - intros i p Hi. pose proof (lookup_lt_Some _ _ _ Hi) as Hlt.
    assert (nth i pathPoints undefinedVector = p) as Hnth
      by (by rewrite nth_lookup, Hi).
    subst outline. rewrite expandedPath_map. split.
    + rewrite lookup_app_l by (rewrite length_map, length_seq; lia).
      rewrite list_lookup_fmap, lookup_seq_lt by lia. simpl. by rewrite Hnth.
    + rewrite lookup_app_r by (rewrite length_map, length_seq; lia).
      rewrite length_map, length_seq, list_lookup_fmap.
      rewrite reverse_lookup by (rewrite length_seq; lia).
      rewrite length_seq, lookup_seq_lt by lia. simpl.
      replace (length pathPoints
               - S (length pathPoints + (length pathPoints + 0) - 1 - i
                    - length pathPoints)) with i by lia.
      by rewrite Hnth.
  - subst shape. unfold GPXTrack3D_pathShape.
    apply Nat.leb_le in Hn as Hn'. rewrite Hn'. fold outline.
    destruct outline as [|v rest] eqn:Ho; [simpl in Hlen; lia|].
    change (drop 1 (v :: rest)) with rest. cbn [nth]. cbv zeta.
    destruct (last (v :: rest)) as [endPoint|] eqn:Hlast;
      [|by apply last_None in Hlast].
    unfold default, from_option, id.
    destruct (Vector2_equals v endPoint) eqn:Heq.
    + apply Vector2_equals_eq in Heq. subst endPoint.
      split; [left; split; reflexivity|].
      by rewrite Hlast.
    + split; [right; by rewrite ?Ho|]. by rewrite last_snoc.
Qed.



(** X9: in a scene without an empty footprint, [Scene3D] renders a track
    exactly when there are bounds and at least two track points; the track is
    then the extrusion of an outline of [2n] or [2n + 1] points, closed when
    its points are finite, by [pathExtrusionHeight] or by 2 when that is
    missing, zero or NaN, so never by zero or NaN. *)
Theorem Scene3D_track
    (ExtrudeGeometry : Shape -> num -> BufferGeometry) (Math_sqrt : num -> num)
    (osmData : option OSMData) (bounds : option OSMBounds)
    (gpxPoints : option (list GPXPoint.t)) (strokeWidth : option num)
    (modelDimensions : option ModelDimensions)
    (buildingHeightRange : option HeightRange.t) (pathExtrusionHeight : option num) :
  Forall (fun b => geometry b <> []) (default [] (buildings <$> osmData)) ->
  match trackMesh (Scene3D ExtrudeGeometry Math_sqrt osmData bounds gpxPoints
                     strokeWidth modelDimensions buildingHeightRange
                     pathExtrusionHeight) with
  | Some g =>
      exists b points shape h,
        bounds = Some b /\ gpxPoints = Some points /\ 2 <= length points
        /\ g = ExtrudeGeometry shape h
        /\ 2 * length points <= length shape <= 2 * length points + 1
        /\ (Forall (fun v => finiteVector v = true) shape -> head shape = last shape)
        /\ truthy h = true
        /\ h = (if truthy (default NaN pathExtrusionHeight)
                then default NaN pathExtrusionHeight else ofZ 2)
  | None =>
      bounds = None \/ gpxPoints = None
      \/ exists points, gpxPoints = Some points /\ length points < 2
  end.
Proof.
  intros _.
  unfold Scene3D. destruct bounds as [b|]; [|by left].
  destruct gpxPoints as [points|]; [|right; by left]. cbn [trackMesh].
  destruct (1 <? length points) eqn:Hlen.
  - apply Nat.ltb_lt in Hlen.
    unfold GPXTrack3D.
    assert ((length points <? 2) = false) as -> by (apply Nat.ltb_ge; lia).
    destruct (pathShape_outline Math_sqrt
                (GPXTrack3D_pathPoints points b modelDimensions)
                (default (ofZ 2) strokeWidth * half)%num)
      as (Hl & _ & Hshape & Hc).
    { unfold GPXTrack3D_pathPoints. rewrite length_map. lia. }
    unfold GPXTrack3D_pathPoints in Hl at 2. rewrite length_map in Hl.
    eexists b, points, _, _.
    split; [reflexivity|]. split; [reflexivity|]. split; [lia|].
    split; [reflexivity|]. split; [|split; [intros _; exact Hc|]].
    + destruct Hshape as [[-> _]| ->]; [lia|].
      rewrite length_app, length_take. lia.
    + destruct pathExtrusionHeight as [h|]; simpl.
      * destruct (truthy h) eqn:Hh; [by rewrite Hh | done].
      * done.
  - apply Nat.ltb_ge in Hlen. right. right. exists points. split; [reflexivity | lia].
Qed.

Lemma ofZ_1 : ofZ 1 = Fin 1%Qc.
Proof. apply Fin_eq. reflexivity. Qed.

Lemma Scene3D_track_witness :
  exists shape,
    trackMesh (Scene3D wallExtrude sampleSqrt None (Some unitBounds)
                 (Some [GPXPoint.mk (ofZ 0) (ofZ 0) None; GPXPoint.mk (ofZ 1) (ofZ 1) None])
                 None None None None)
    = Some (wallExtrude shape (ofZ 2)).
Proof.
  pose proof (Scene3D_track wallExtrude sampleSqrt None (Some unitBounds)
                (Some [GPXPoint.mk (ofZ 0) (ofZ 0) None;
                       GPXPoint.mk (ofZ 1) (ofZ 1) None])
                None None None None) as H.
  destruct (trackMesh _) as [g|].
  - destruct H as (b & points & shape & h & _ & _ & _ & -> & _ & _ & _ & ->);
      [constructor|].
    by exists shape.
  - destruct H as [H|[H|(points & H & Hlen)]]; [constructor | discriminate.. |].
    injection H as <-. simpl in Hlen. lia.
Defined.

(** X10: a track of two points is widened to a parallelogram: both ends
    are moved by one and the same vector, the direction of the segment turned
    by a quarter and scaled by [pathWidth], to one side and by its opposite to
    the other. *)
Theorem expandedPath_segment (Math_sqrt : num -> num) (p0 p1 : Vector2.t)
    (pathWidth : num) :
  let d := Vector2_normalize Math_sqrt (Vector2.subVectors p1 p0) in
  let o :=
    Vector2.multiplyScalar (Vector2.mk (- Vector2.y d)%num (Vector2.x d)) pathWidth in
  expandedPath Math_sqrt [p0; p1] pathWidth
  = [Vector2.addVectors p0 o; Vector2.addVectors p1 o;
     Vector2.subVectors p1 o; Vector2.subVectors p0 o].
Proof.
  intros d o. rewrite expandedPath_map.
  cbn [length seq map reverse rev_append app nth].
  assert (forall i, i < 2 -> perpendicular Math_sqrt [p0; p1] pathWidth i = o) as Hperp.
  { intros i Hi. unfold perpendicular, direction.
    destruct i as [|[|i]]; [reflexivity | reflexivity | lia]. }
  by rewrite !Hperp by lia.
Qed.

(** X11: two track points at the same place, with [Math.sqrt(0) = 0]: the
    zero direction is divided by 1, not by 0, so the outline is that point
    four times and holds no NaN. *)
Theorem expandedPath_duplicate_point (Math_sqrt : num -> num) (x0 y0 w : Qc) :
  Math_sqrt (Fin 0%Qc) = Fin 0%Qc ->
  expandedPath Math_sqrt [Vector2.mk (Fin x0) (Fin y0); Vector2.mk (Fin x0) (Fin y0)]
    (Fin w)
  = [Vector2.mk (Fin x0) (Fin y0); Vector2.mk (Fin x0) (Fin y0);
     Vector2.mk (Fin x0) (Fin y0); Vector2.mk (Fin x0) (Fin y0)].
Proof.
  intros Hsqrt.
  assert (Vector2_normalize Math_sqrt
            (Vector2.subVectors (Vector2.mk (Fin x0) (Fin y0)) (Vector2.mk (Fin x0) (Fin y0)))
          = Vector2.mk (Fin 0%Qc) (Fin 0%Qc)) as Hdir.
  { unfold Vector2.subVectors. cbn [Vector2.x Vector2.y]. rewrite !sub_Fin.
    assert ((x0 - x0)%Qc = 0%Qc) as -> by ring.
    assert ((y0 - y0)%Qc = 0%Qc) as -> by ring.
    unfold Vector2_normalize, Vector2_length. cbn [Vector2.x Vector2.y].
    rewrite !mul_Fin, add_Fin.
    assert ((0 * 0 + 0 * 0)%Qc = 0%Qc) as -> by ring.
    rewrite Hsqrt. simpl truthy. cbv iota.
    unfold Vector2.divideScalar, Vector2.multiplyScalar. cbn [Vector2.x Vector2.y].
    rewrite ofZ_1, div_Fin, !mul_Fin by apply Q_apart_0_1.
    f_equal; f_equal; field; apply Q_apart_0_1. }
  assert (forall i, i < 2 ->
            perpendicular Math_sqrt
              [Vector2.mk (Fin x0) (Fin y0); Vector2.mk (Fin x0) (Fin y0)] (Fin w) i
            = Vector2.mk (Fin 0%Qc) (Fin 0%Qc)) as Hperp.
  { intros i Hi. unfold perpendicular, direction.
    destruct i as [|[|i]]; [| |lia]; cbn [Nat.eqb Nat.add Nat.sub length nth];
      rewrite Hdir; unfold Vector2.multiplyScalar; cbn [Vector2.x Vector2.y];
      simpl Num.neg; rewrite !mul_Fin; f_equal; f_equal; ring. }
  rewrite expandedPath_map. cbn [length seq map reverse rev_append app nth].
  rewrite !Hperp by lia.
  unfold Vector2.addVectors, Vector2.subVectors. cbn [Vector2.x Vector2.y].
  rewrite !add_Fin, !sub_Fin.
  repeat (f_equal; try (f_equal; f_equal; ring)).
Qed.

Lemma expandedPath_duplicate_point_witness :
  expandedPath sampleSqrt [Vector2.mk (ofZ 7) (ofZ 9); Vector2.mk (ofZ 7) (ofZ 9)] (ofZ 1)
  = [Vector2.mk (ofZ 7) (ofZ 9); Vector2.mk (ofZ 7) (ofZ 9);
     Vector2.mk (ofZ 7) (ofZ 9); Vector2.mk (ofZ 7) (ofZ 9)].
Proof.
  apply (expandedPath_duplicate_point sampleSqrt
           (Q2Qc (inject_Z 7)) (Q2Qc (inject_Z 9)) (Q2Qc (inject_Z 1))).
  vm_compute. num_eq.
Defined.

(** ** More on the merge *)

Lemma shiftedIndices_length (gs : list BufferGeometry) (offset : nat) :
  length (shiftedIndices offset gs) = totalIndexCount gs.
Proof.
  revert offset. induction gs as [|g gs IH]; intros offset; [reflexivity|].
  simpl. by rewrite length_app, length_map, IH.
Qed.

(** The merged buffer of two or more geometries. *)
Lemma mergeGeometries_loop (gs : list BufferGeometry) :
  length gs <> 1 ->
  mergeGeometries gs
  = mkGeometry (concat (map copiedPositions gs)) (Some (shiftedIndices 0 gs)).
Proof.
  intros Hlen. unfold mergeGeometries.
  destruct gs as [|g1 [|g2 rest]]; [reflexivity | simpl in Hlen; lia |].
  by rewrite merge_loop_spec.
Qed.

(** X12: when none of two or more geometries has an index (as geometries
    without shared vertices are), the merge still copies every vertex but
    sets an index with no entry at all. *)
Theorem mergeGeometries_without_index (gs : list BufferGeometry) :
  2 <= length gs ->
  Forall (fun g => index g = None) gs ->
  index (mergeGeometries gs) = Some []
  /\ position (mergeGeometries gs) = concat (map copiedPositions gs)
  /\ count (mergeGeometries gs) = totalCount gs.
Proof.
  intros Hlen Hnone. rewrite mergeGeometries_loop by lia. cbn [index position].
  rewrite (shiftedIndices_without_index gs 0 Hnone).
  split; [reflexivity|]. split; [reflexivity|].
  unfold count. cbn [position].
  rewrite concat_copiedPositions_length. apply Nat.div_mul. lia.
Qed.

Lemma mergeGeometries_without_index_witness :
  index (mergeGeometries
           [mkGeometry [ofZ 0; ofZ 0; ofZ 0; ofZ 1; ofZ 0; ofZ 0; ofZ 0; ofZ 1; ofZ 0] None;
            mkGeometry [ofZ 5; ofZ 5; ofZ 0; ofZ 6; ofZ 5; ofZ 0; ofZ 5; ofZ 6; ofZ 0] None])
  = Some [].
Proof.
  apply (mergeGeometries_without_index
           [mkGeometry [ofZ 0; ofZ 0; ofZ 0; ofZ 1; ofZ 0; ofZ 0; ofZ 0; ofZ 1; ofZ 0] None;
            mkGeometry [ofZ 5; ofZ 5; ofZ 0; ofZ 6; ofZ 5; ofZ 0; ofZ 5; ofZ 6; ofZ 0] None]).
  - simpl. lia.
  - repeat constructor.
Defined.

(** X13: the merge keeps geometries well formed and loses no triangle: if
    every input holds whole vertices and indices that point at its own
    vertices, so does the result, and for two or more inputs its index has as
    many entries as the inputs have together. *)
Theorem mergeGeometries_valid (gs : list BufferGeometry) :
  Forall validGeometry gs ->
  validGeometry (mergeGeometries gs)
  /\ (length gs <> 1 ->
      length (default [] (index (mergeGeometries gs))) = totalIndexCount gs).
Proof.
  intros Hvalid.
  destruct (decide (length gs = 1)) as [H1|H1].
  - split; [|congruence].
    destruct gs as [|g [|g2 rest]]; try discriminate.
    by apply Forall_cons in Hvalid as [Hg _].
  - rewrite mergeGeometries_loop by assumption. split.
    + assert (count (mkGeometry (concat (map copiedPositions gs))
                       (Some (shiftedIndices 0 gs))) = totalCount gs) as Hc.
      { unfold count. cbn [position].
        rewrite concat_copiedPositions_length. apply Nat.div_mul. lia. }
      split.
      * rewrite Hc. cbn [position]. apply concat_copiedPositions_length.
      * rewrite Hc. cbn [index default].
        exact (shiftedIndices_bound gs 0 Hvalid).
    + intros _. cbn [index default]. apply shiftedIndices_length.
Qed.

Lemma mergeGeometries_valid_witness :
  validGeometry
    (mergeGeometries [wallExtrude triangleShape (ofZ 2); wallExtrude squareShape (ofZ 2)]).
Proof.
  apply (mergeGeometries_valid
           [wallExtrude triangleShape (ofZ 2); wallExtrude squareShape (ofZ 2)]).
  repeat constructor; vm_compute; lia.
Defined.

(** X14: [Foundation3D] looks at the footprints only: the footprints with
    more than two vertices are projected, extruded and merged in their order,
    the others are skipped, and when none is left the foundation is the empty
    geometry.  The check of [points.length] never rejects a footprint that the
    check of [geometry.length] has accepted. *)
Theorem Foundation3D_footprints
    (ExtrudeGeometry : Shape -> num -> BufferGeometry)
    (buildings : list Building) (bounds : OSMBounds)
    (modelDimensions : option ModelDimensions) :
  let kept := filter (fun b => 2 < length (geometry b)) buildings in
  Foundation3D ExtrudeGeometry buildings bounds modelDimensions
  = Foundation3D_merge ExtrudeGeometry
      (map (fun b => Building3D_points b bounds modelDimensions) kept)
  /\ (kept = [] ->
      Foundation3D ExtrudeGeometry buildings bounds modelDimensions = emptyGeometry)
  /\ Forall (fun b => length (Building3D_points b bounds modelDimensions)
                      = length (geometry b)) buildings.
Proof.
  intros kept.
  assert (Foundation3D ExtrudeGeometry buildings bounds modelDimensions
          = Foundation3D_merge ExtrudeGeometry
              (map (fun b => Building3D_points b bounds modelDimensions) kept)) as H
    by apply Foundation3D_skips_short_footprints.
  split; [exact H|]. split.
  - intros Hk. rewrite H, Hk. reflexivity.
  - apply Forall_forall. intros b _. apply Foundation3D_points_length.
Qed.

Lemma Foundation3D_footprints_witness :
  Foundation3D wallExtrude
    [mkBuilding [mkCoord (ofZ 0) (ofZ 0); mkCoord (ofZ 1) (ofZ 1)] ∅;
     mkBuilding [] ∅] unitBounds None
  = emptyGeometry.
Proof.
  apply (Foundation3D_footprints wallExtrude
           [mkBuilding [mkCoord (ofZ 0) (ofZ 0); mkCoord (ofZ 1) (ofZ 1)] ∅;
            mkBuilding [] ∅] unitBounds None).
  reflexivity.
Defined.

(** ** More on the height resolution *)

(** X15: only the tags [height], [building:levels] and [building] and
    nothing of the footprint enter the height: setting any other tag leaves
    it as it is. *)
Theorem getBuildingHeight_other_tag (g g' : list Coord) (t : gmap string string)
    (key value : string) :
  key <> "height" -> key <> "building:levels" -> key <> "building" ->
  getBuildingHeight (mkBuilding g (<[key := value]> t))
  = getBuildingHeight (mkBuilding g' t).
Proof.
  intros H1 H2 H3. unfold getBuildingHeight. cbn [tags].
  by rewrite !lookup_insert_ne.
Qed.

Lemma getBuildingHeight_other_tag_witness :
  getBuildingHeight
    (mkBuilding [] (<["roof:height" := "3"]> (list_to_map [("building:levels", "2")])))
  = getBuildingHeight (taggedBuilding [("building:levels", "2")]).
Proof.
  apply (getBuildingHeight_other_tag [] [] (list_to_map [("building:levels", "2")])
           "roof:height" "3"); discriminate.
Defined.

(** ** The page *)

(** X17: the fetched map data is handed back to the generator exactly when
    there is a cache and both switches (roads, buildings) are as they were
    when it was filled; the key holds nothing else. *)
Theorem Home_cachedOSMData_flags (JSON_parse : string -> OSMBounds)
    (includeRoads includeBuildings : bool) (osmDataCache : option Home.OSMDataCache) :
  Home.cachedOSMData JSON_parse includeRoads includeBuildings osmDataCache
  = match osmDataCache with
    | Some c =>
        if Bool.eqb includeRoads (Home.includeRoads c)
           && Bool.eqb includeBuildings (Home.includeBuildings c)
        then Some (Home.data c, JSON_parse (Home.bounds c))
        else None
    | None => None
    end.
Proof.
  destruct osmDataCache as [[d b r bu]|]; [|reflexivity].
  unfold Home.cachedOSMData, Home.currentCacheKey. cbn [Home.includeRoads Home.includeBuildings Home.data Home.bounds].
  by destruct includeRoads, includeBuildings, r, bu.
Qed.

(** X18: the 3D view of the page.  Without cached map data nothing is
    rendered, not even the track.  With it, the viewer always gets the model
    dimensions and the height range of the sliders (whole numbers), so when
    no footprint is empty, the building heights are at most [2^51] in
    magnitude and the sliders have min <= max, there is one mesh per building
    and every building is extruded by a height between the two slider
    values. *)
Theorem Home_viewer3D (JSON_parse : string -> OSMBounds)
    (ExtrudeGeometry : Shape -> num -> BufferGeometry) (Math_sqrt : num -> num)
    (c : Home.OSMDataCache) (points : list GPXPoint.t)
    (strokeWidth pathExtrusionHeight : list num) (wd dp : Qc) (tmin tmax : Z) :
  let range := HeightRange.mk (ofZ tmin) (ofZ tmax) in
  let dims := Some (mkDims (Fin wd) (Fin dp)) in
  let bounds := JSON_parse (Home.bounds c) in
  let height b :=
    Building3D_height (getBuildingHeight b)
      (buildingHeightMapping (Some (Home.data c)) (Some range)) in
  buildings (Home.data c) <> [] ->
  Forall (fun b => geometry b <> []) (buildings (Home.data c)) ->
  Forall (fun b => ordinary (getBuildingHeight b) = true) (buildings (Home.data c)) ->
  (- 2 ^ 51 <= tmin)%Z -> (tmin <= tmax)%Z -> (tmax <= 2 ^ 51)%Z ->
  Home.viewer3D JSON_parse ExtrudeGeometry Math_sqrt None points strokeWidth
    [Fin wd] [Fin dp] [ofZ tmin] [ofZ tmax] pathExtrusionHeight
  = mkScene None [] None
  /\ buildingMeshes
       (Home.viewer3D JSON_parse ExtrudeGeometry Math_sqrt (Some c) points strokeWidth
          [Fin wd] [Fin dp] [ofZ tmin] [ofZ tmax] pathExtrusionHeight)
     = map (fun b => ExtrudeGeometry (Building3D_points b bounds dims) (height b))
           (buildings (Home.data c))
  /\ Forall (fun b => within (ofZ tmin) (ofZ tmax) (height b) = true)
       (buildings (Home.data c)).
Proof.
  intros range dims bounds height Hne _ Hord Hlo Ht Hhi.
  split; [reflexivity|]. split; [reflexivity|].
  subst height range. unfold ofZ.
  apply heights_within_target; [exact Hne | | by apply ofZ_le].
  by apply Forall_ordinary_finite.
Qed.

Lemma Home_viewer3D_witness :
  let footprint := [mkCoord (ofZ 0) (ofZ 0); mkCoord (ofZ 0) (ofZ 1); mkCoord (ofZ 1) (ofZ 1)] in
  let c :=
    Home.mkCache
      (mkOSMData [mkBuilding footprint (list_to_map [("height", "4")]);
                  mkBuilding footprint (list_to_map [("height", "40")])])
      "bounds" true true in
  Forall (fun b => within (ofZ 5) (ofZ 30)
                     (Building3D_height (getBuildingHeight b)
                        (buildingHeightMapping (Some (Home.data c))
                           (Some (HeightRange.mk (ofZ 5) (ofZ 30))))) = true)
         (buildings (Home.data c)).
Proof.
  intros footprint c.
  destruct (Home_viewer3D (fun _ => unitBounds) wallExtrude sampleSqrt c [] [] []
              (Q2Qc (inject_Z 200)) (Q2Qc (inject_Z 200)) 5 30) as (_ & _ & H).
  - discriminate.
  - repeat constructor; discriminate.
  - repeat constructor.
  - vm_compute. congruence.
  - vm_compute. congruence.
  - vm_compute. congruence.
  - exact H.
Defined.

(** ** The selection area of the colour picker *)

Section Selection.

Import ColorPickerSelection.

Lemma Qc_0_le_1 : (0 <= 1)%Qc.
Proof. vm_compute. congruence. Qed.

Lemma ofZ_0 : ofZ 0 = Fin 0%Qc.
Proof. apply Fin_eq. reflexivity. Qed.

(** [Math.max(0, Math.min(1, v))] is NaN for NaN and otherwise a number
    from 0 to 1. *)
Lemma clamp01_cases (v : num) :
  (v = NaN /\ clamp01 v = NaN)
  \/ exists q, clamp01 v = Fin q /\ (0 <= q)%Qc /\ (q <= 1)%Qc.
Proof.
  destruct v as [|s|q].
  - left. by split.
  - right. destruct s.
    + exists 0%Qc. split; [apply Fin_eq; reflexivity|].
      split; [apply Qcle_refl | apply Qc_0_le_1].
    + exists 1%Qc. split; [apply Fin_eq; reflexivity|].
      split; [apply Qc_0_le_1 | apply Qcle_refl].
  - right. unfold clamp01, Math_min, Math_max.
    cbn [existsb isNaN orb foldl Num.ltb andb negb ofZ].
    destruct (Qc_ltb q (Q2Qc (inject_Z 1))) eqn:E1; cbn [isNaN orb].
    + destruct (Qc_ltb (Q2Qc (inject_Z 0)) q) eqn:E0.
      * exists q. split; [reflexivity|].
        apply Qc_ltb_true in E0, E1. split; by apply Qclt_le_weak.
      * exists 0%Qc. split; [apply Fin_eq; reflexivity|].
        split; [apply Qcle_refl | apply Qc_0_le_1].
    + exists 1%Qc. split; [apply Fin_eq; reflexivity|].
      split; [apply Qc_0_le_1 | apply Qcle_refl].
Qed.

Lemma Qc_mul_unit_bound (a b hi : Qc) :
  (0 <= a)%Qc -> (a <= hi)%Qc -> (0 <= b)%Qc -> (b <= 1)%Qc ->
  (0 <= a * b)%Qc /\ (a * b <= hi)%Qc.
Proof.
  intros Ha0 Ha1 Hb0 Hb1. split; [by apply Qcmult_nonneg_nonneg|].
  eapply Qcle_trans; [apply Qcmult_le_compat_r; [exact Ha1 | exact Hb0]|].
  rewrite <- (Qcmult_1_r hi) at 2.
  apply Qcmult_le_mono_nonneg_l; [exact (Qcle_trans _ _ _ Ha0 Ha1) | exact Hb1].
Qed.

Lemma Qc_one_minus_unit (y : Qc) :
  (0 <= y)%Qc -> (y <= 1)%Qc -> (0 <= 1 - y)%Qc /\ (1 - y <= 1)%Qc.
Proof.
  intros H0 H1. split; [by apply Qc_sub_nonneg|].
  apply Qcle_minus_iff. replace (1 + - (1 - y))%Qc with y by ring. exact H0.
Qed.

(** The values a move sets, for [x] and [y] from 0 to 1. *)
Lemma selection_values (x y : Qc) :
  (0 <= x)%Qc -> (x <= 1)%Qc -> (0 <= y)%Qc -> (y <= 1)%Qc ->
  within (ofZ 0) (ofZ 100) (Fin x * ofZ 100)%num = true
  /\ within (ofZ 0) (ofZ 100)
       ((if Num.ltb (Fin x) (ofQ (1 # 100)) then ofZ 100
         else (ofZ 50 + ofZ 50 * (ofZ 1 - Fin x))%num) * (ofZ 1 - Fin y))%num = true.
Proof.
  intros Hx0 Hx1 Hy0 Hy1.
  assert ((0 <= Q2Qc (inject_Z 100))%Qc) as H100 by (vm_compute; congruence).
  assert ((0 <= Q2Qc (inject_Z 50))%Qc) as H50 by (vm_compute; congruence).
  destruct (Qc_one_minus_unit x Hx0 Hx1) as [Hx2 Hx3].
  destruct (Qc_one_minus_unit y Hy0 Hy1) as [Hy2 Hy3].
  unfold ofZ.
  change (Q2Qc (inject_Z 0)) with 0%Qc. change (Q2Qc (inject_Z 1)) with 1%Qc.
  split.
  - rewrite mul_Fin. apply within_Fin_intro.
    + by apply Qcmult_nonneg_nonneg.
    + rewrite <- (Qcmult_1_l (Q2Qc (inject_Z 100))) at 2.
      by apply Qcmult_le_compat_r.
  - destruct (Num.ltb (Fin x) (ofQ (1 # 100))).
    + rewrite sub_Fin, mul_Fin.
      destruct (Qc_mul_unit_bound (Q2Qc (inject_Z 100)) (1 - y) (Q2Qc (inject_Z 100)));
        try assumption; [apply Qcle_refl|].
      by apply within_Fin_intro.
    + rewrite !sub_Fin, !mul_Fin, add_Fin, mul_Fin.
      destruct (Qc_mul_unit_bound (Q2Qc (inject_Z 50)) (1 - x) (Q2Qc (inject_Z 50)))
        as [Hm0 Hm1]; try assumption; [apply Qcle_refl|].
      destruct (Qc_mul_unit_bound
                  (Q2Qc (inject_Z 50) + Q2Qc (inject_Z 50) * (1 - x))%Qc (1 - y)
                  (Q2Qc (inject_Z 100))); try assumption.
      * by apply Qcplus_nonneg_nonneg.
      * replace (Q2Qc (inject_Z 100))
          with (Q2Qc (inject_Z 50) + Q2Qc (inject_Z 50))%Qc
          by (apply Qc_is_canon; reflexivity).
        by apply Qcplus_le_mono_l.
      * by apply within_Fin_intro.
Qed.

(** X19: whatever the pointer position and the rectangle of the container
    are, a move that sets the state sets both positions to NaN or to a number
    from 0 to 1, and the saturation and the lightness to NaN or to a number
    from 0 to 100. *)
Theorem handlePointerMove_ranges (isDragging : bool)
    (containerRef_current : option DOMRect.t) (event : PointerEvent.t)
    (u : Update.t) :
  handlePointerMove isDragging containerRef_current event = Some u ->
  (isNaN (Update.positionX u) = true
   \/ within (ofZ 0) (ofZ 1) (Update.positionX u) = true)
  /\ (isNaN (Update.positionY u) = true
      \/ within (ofZ 0) (ofZ 1) (Update.positionY u) = true)
  /\ (isNaN (Update.saturation u) = true
      \/ within (ofZ 0) (ofZ 100) (Update.saturation u) = true)
  /\ (isNaN (Update.lightness u) = true
      \/ within (ofZ 0) (ofZ 100) (Update.lightness u) = true).
Proof.
  unfold handlePointerMove.
  destruct containerRef_current as [rect|]; [|discriminate].
  destruct isDragging; [|discriminate]. cbn [negb]. cbv zeta.
  intros H. injection H as <-.
  cbn [Update.positionX Update.positionY Update.saturation Update.lightness].
  assert (forall q, (0 <= q)%Qc -> (q <= 1)%Qc -> within (ofZ 0) (ofZ 1) (Fin q) = true)
    as Hunit.
  { intros q H0 H1. rewrite ofZ_0, ofZ_1. by apply within_Fin_intro. }
  destruct (clamp01_cases ((PointerEvent.clientX event - DOMRect.left rect)
                           / DOMRect.width rect)%num)
    as [[_ ->]|(x & -> & Hx0 & Hx1)];
    destruct (clamp01_cases ((PointerEvent.clientY event - DOMRect.top rect)
                             / DOMRect.height rect)%num)
      as [[_ ->]|(y & -> & Hy0 & Hy1)].
  - repeat split; by left.
  - split; [by left|]. split; [right; by apply Hunit|]. split; by left.
  - split; [right; by apply Hunit|]. split; [by left|].
    split; [right; apply (selection_values x 0%Qc Hx0 Hx1 (Qcle_refl 0) Qc_0_le_1)|].
    left. by destruct (Num.ltb (Fin x) (ofQ (1 # 100))).
  - destruct (selection_values x y Hx0 Hx1 Hy0 Hy1) as [Hs Hl].
    split; [right; by apply Hunit|]. split; [right; by apply Hunit|].
    split; by right.
Qed.

Lemma handlePointerMove_ranges_witness :
  within (ofZ 0) (ofZ 100)
    (Update.lightness
       (Update.mk (ofQ (1 # 2)) (ofQ (1 # 4)) (ofZ 50) (ofQ (225 # 4)))) = true.
Proof.
  destruct (handlePointerMove_ranges true
              (Some (DOMRect.mk (ofZ 10) (ofZ 20) (ofZ 200) (ofZ 100)))
              (PointerEvent.mk (ofZ 110) (ofZ 45))
              (Update.mk (ofQ (1 # 2)) (ofQ (1 # 4)) (ofZ 50) (ofQ (225 # 4))))
    as (_ & _ & _ & [H|H]).
  - vm_compute. apply f_equal. f_equal; apply Fin_eq; reflexivity.
  - discriminate.
  - exact H.
Defined.

(** X20: for a finite pointer position and a finite rectangle whose width
    and height are not zero, a move while dragging sets positions from 0 to 1
    and a saturation and a lightness from 0 to 100; none of them is NaN. *)
Theorem handlePointerMove_finite (cx cy l t w h : Qc) :
  w <> 0%Qc -> h <> 0%Qc ->
  exists u,
    handlePointerMove true (Some (DOMRect.mk (Fin l) (Fin t) (Fin w) (Fin h)))
      (PointerEvent.mk (Fin cx) (Fin cy)) = Some u
    /\ within (ofZ 0) (ofZ 1) (Update.positionX u) = true
    /\ within (ofZ 0) (ofZ 1) (Update.positionY u) = true
    /\ within (ofZ 0) (ofZ 100) (Update.saturation u) = true
    /\ within (ofZ 0) (ofZ 100) (Update.lightness u) = true.
Proof.
  intros Hw Hh. unfold handlePointerMove. cbn [negb]. cbv zeta.
  cbn [PointerEvent.clientX PointerEvent.clientY DOMRect.left DOMRect.top
       DOMRect.width DOMRect.height].
  rewrite !sub_Fin, !div_Fin by assumption.
  destruct (clamp01_cases (Fin ((cx - l) / w)%Qc)) as [[E _]|(x & -> & Hx0 & Hx1)];
    [discriminate|].
  destruct (clamp01_cases (Fin ((cy - t) / h)%Qc)) as [[E _]|(y & -> & Hy0 & Hy1)];
    [discriminate|].
  destruct (selection_values x y Hx0 Hx1 Hy0 Hy1) as [Hs Hl].
  eexists. split; [reflexivity|].
  cbn [Update.positionX Update.positionY Update.saturation Update.lightness].
  split; [rewrite ofZ_0, ofZ_1; by apply within_Fin_intro|].
  split; [rewrite ofZ_0, ofZ_1; by apply within_Fin_intro|].
  by split.
Qed.

Lemma handlePointerMove_finite_witness :
  exists u,
    handlePointerMove true (Some (DOMRect.mk (ofZ 10) (ofZ 20) (ofZ 200) (ofZ 100)))
      (PointerEvent.mk (ofZ 500) (ofZ (-5))) = Some u
    /\ within (ofZ 0) (ofZ 1) (Update.positionX u) = true
    /\ within (ofZ 0) (ofZ 1) (Update.positionY u) = true
    /\ within (ofZ 0) (ofZ 100) (Update.saturation u) = true
    /\ within (ofZ 0) (ofZ 100) (Update.lightness u) = true.
Proof.
  apply (handlePointerMove_finite
           (Q2Qc (inject_Z 500)) (Q2Qc (inject_Z (-5))) (Q2Qc (inject_Z 10))
           (Q2Qc (inject_Z 20)) (Q2Qc (inject_Z 200)) (Q2Qc (inject_Z 100)));
    intros E; apply (f_equal this) in E; discriminate.
Defined.

(** X21: a container of zero width (and a height that is not zero): the
    horizontal position is 1 when the pointer is right of its left edge, 0
    when it is left of it, and NaN, with a NaN saturation and lightness, when
    it is on it. *)
Theorem handlePointerMove_zero_width (cx cy l t h : Qc) :
  h <> 0%Qc ->
  exists u,
    handlePointerMove true (Some (DOMRect.mk (Fin l) (Fin t) (Fin 0%Qc) (Fin h)))
      (PointerEvent.mk (Fin cx) (Fin cy)) = Some u
    /\ ((l < cx)%Qc -> Update.positionX u = ofZ 1)
    /\ ((cx < l)%Qc -> Update.positionX u = ofZ 0)
    /\ (cx = l -> Update.positionX u = NaN /\ Update.saturation u = NaN
                   /\ Update.lightness u = NaN).
Proof.
  intros Hh. unfold handlePointerMove. cbn [negb]. cbv zeta.
  cbn [PointerEvent.clientX PointerEvent.clientY DOMRect.left DOMRect.top
       DOMRect.width DOMRect.height].
  eexists. split; [reflexivity|].
  cbn [Update.positionX Update.saturation Update.lightness].
  rewrite !sub_Fin. cbn [Num.div]. rewrite (proj2 (Qc_eqb_true 0 0) eq_refl).
  split; [|split].
  - intros Hlt. apply Qc_sub_pos in Hlt.
    assert (Qc_eqb (cx - l) 0 = false) as ->
      by (apply Qc_eqb_false, not_eq_sym, Qclt_not_eq; exact Hlt).
    assert (Qc_ltb (cx - l) 0 = false) as ->
      by (apply Qc_ltb_false; by apply Qclt_le_weak).
    apply Fin_eq. reflexivity.
  - intros Hlt.
    assert ((cx - l < 0)%Qc) as Hneg.
    { apply Qclt_minus_iff. replace (0 + - (cx - l))%Qc with (l - cx)%Qc by ring.
      by apply Qc_sub_pos. }
    assert (Qc_eqb (cx - l) 0 = false) as ->
      by (apply Qc_eqb_false, Qclt_not_eq; exact Hneg).
    assert (Qc_ltb (cx - l) 0 = true) as -> by (by apply Qc_ltb_true).
    apply Fin_eq. reflexivity.
  - intros ->.
    assert (Qc_eqb (l - l) 0 = true) as -> by (apply Qc_eqb_true; ring).
    repeat split.
Qed.

Lemma handlePointerMove_zero_width_witness :
  exists u,
    handlePointerMove true (Some (DOMRect.mk (ofZ 10) (ofZ 20) (ofZ 0) (ofZ 100)))
      (PointerEvent.mk (ofZ 10) (ofZ 30)) = Some u
    /\ Update.saturation u = NaN.
Proof.
  destruct (handlePointerMove_zero_width
              (Q2Qc (inject_Z 10)) (Q2Qc (inject_Z 30)) (Q2Qc (inject_Z 10))
              (Q2Qc (inject_Z 20)) (Q2Qc (inject_Z 100)))
    as (u & Hu & _ & _ & Hnan).
  - intros E. apply (f_equal this) in E. discriminate.
  - exists u. split; [exact Hu|]. by destruct (Hnan eq_refl) as (_ & Hs & _).
Defined.

End Selection.
